(** * mmi2grpc proxies: SDP service-list comparator, SM pairing responder,
      L2CAP handlers.

    A shallow embedding of the handlers of
    [android/pandora/mmi2grpc/mmi2grpc/{sdp,sm,l2cap}.py].
    A handler that returns or raises is a function into [result];
    a handler that touches the proxy object or a remote service threads
    the proxy state and a trace of the remote calls it made. *)

From stdpp Require Import gmap strings list fin_maps.
From Stdlib Require Import Ascii String NArith Permutation.

Local Open Scope string_scope.
Local Open Scope list_scope.

(** ** Python values shared by the three proxies *)

(** What an [AssertionError] was raised about: a plain [assert] with its
    message, or a failed [unittest] comparison with the two compared
    lists ([unittest.TestCase.failureException] is [AssertionError]). *)
Inductive assertion_detail : Type :=
  | AssertMsg (msg : string)
  | NotEqual (first second : list string)
  | CountsNotEqual (first second : list string).

Inductive exn : Type :=
  | AssertionError (d : assertion_detail)
  | ValueError (arg : string)
  | KeyError (key : string)
  | Exception (msg : string)
  | AttributeError (name : string)
  | StopIteration
  | Empty.

Inductive result (A : Type) : Type :=
  | Return (a : A)
  | Raise (e : exn).
Arguments Return {A} a.
Arguments Raise {A} e.

Definition bind {A B} (r : result A) (k : A -> result B) : result B :=
  match r with
  | Return a => k a
  | Raise e => Raise e
  end.

Notation "x <-- r ;; k" := (bind r (fun x => k))
  (at level 100, r at next level, right associativity).
Notation "r ;;; k" := (bind r (fun _ => k))
  (at level 100, right associativity).

Definition is_assertion_error {A} (r : result A) : Prop :=
  exists d, r = Raise (AssertionError d).

(** A method of a proxy object: it reads and updates the object [S] and
    returns or raises. *)
Definition proc (S A : Type) : Type := S -> S * result A.

Definition ret {S A} (a : A) : proc S A := fun st => (st, Return a).
Definition raise {S A} (e : exn) : proc S A := fun st => (st, Raise e).
Definition lift {S A} (r : result A) : proc S A := fun st => (st, r).
Definition gets {S A} (f : S -> A) : proc S A := fun st => (st, Return (f st)).
Definition modify {S} (f : S -> S) : proc S unit := fun st => (f st, Return tt).

Definition pbind {S A B} (m : proc S A) (k : A -> proc S B) : proc S B :=
  fun st =>
    match m st with
    | (st', Return a) => k a st'
    | (st', Raise e) => (st', Raise e)
    end.

(** [try: body / except ...: handler]: [handler e] is [None] for an
    exception no [except] clause takes. *)
Definition try_except {S A} (body : proc S A)
    (handler : exn -> option (proc S A)) : proc S A :=
  fun st =>
    match body st with
    | (st', Return a) => (st', Return a)
    | (st', Raise e) =>
        match handler e with
        | Some h => h st'
        | None => (st', Raise e)
        end
    end.

Notation "'let!' x ':=' m 'in' k" := (pbind m (fun x => k))
  (at level 10, x name, m at level 100, k at level 200).
Notation "m '>>' k" := (pbind m (fun _ => k))
  (at level 100, k at level 200, right associativity).

(** ** Strings as Python has them *)
Module Py.

(** [s.split(sep)] for a non-empty separator: left to right, without
    overlap.  [cur] is the piece being read, [skip] the characters of a
    separator still to drop. *)
Fixpoint split_from (sep s cur : string) (skip : nat) : list string :=
  match s with
  | EmptyString => [cur]
  | String c s' =>
      match skip with
      | S k => split_from sep s' cur k
      | O =>
          if String.prefix sep s
          then cur :: split_from sep s' EmptyString (String.length sep - 1)
          else split_from sep s' (cur +:+ String c EmptyString) 0
      end
  end.

Definition split (sep s : string) : list string :=
  split_from sep s EmptyString 0.

Definition in_range (lo hi : N) (c : ascii) : bool :=
  (lo <=? N_of_ascii c)%N && (N_of_ascii c <=? hi)%N.

Definition is_digit (c : ascii) : bool := in_range 48 57 c.
Definition is_upper_hex (c : ascii) : bool := is_digit c || in_range 65 70 c.

Definition hex_digit (c : ascii) : option N :=
  if is_digit c then Some (N_of_ascii c - 48)%N
  else if in_range 65 70 c then Some (N_of_ascii c - 55)%N
  else if in_range 97 102 c then Some (N_of_ascii c - 87)%N
  else None.

Definition dec_digit (c : ascii) : option N :=
  if is_digit c then Some (N_of_ascii c - 48)%N else None.

(** Positional value of a digit string, most significant digit first. *)
Fixpoint digits_value (digit : ascii -> option N) (base acc : N)
    (s : string) : option N :=
  match s with
  | EmptyString => Some acc
  | String c s' =>
      match digit c with
      | Some d => digits_value digit base (acc * base + d)%N s'
      | None => None
      end
  end.

Definition strip_0x (s : string) : string :=
  match s with
  | String "0" (String "x" ds) => ds
  | String "0" (String "X" ds) => ds
  | _ => s
  end.

(** [int(s, 16)] on the literals a prompt can carry: an optional [0x]
    prefix and at least one hexadecimal digit; anything else is a
    [ValueError].  (Python also takes a sign, surrounding blanks and
    [_] between digits; the patterns of the prompts admit none of
    them.) *)
Definition int_16 (s : string) : result N :=
  match strip_0x s with
  | EmptyString => Raise (ValueError s)
  | ds =>
      match digits_value hex_digit 16 0 ds with
      | Some n => Return n
      | None => Raise (ValueError s)
      end
  end.

(** The default of [sys.int_max_str_digits]. *)
Definition int_max_str_digits : N := 4300.

(** [int(s)] on a string of decimal digits: the empty string, any other
    character, and more digits than [int_max_str_digits] (leading
    zeros count) are a [ValueError]. *)
Definition int_10 (s : string) : result N :=
  match s with
  | EmptyString => Raise (ValueError s)
  | ds =>
      match digits_value dec_digit 10 0 ds with
      | Some n =>
          if (N.of_nat (String.length ds) <=? int_max_str_digits)%N
          then Return n
          else Raise (ValueError s)
      | None => Raise (ValueError s)
      end
  end.

(** [bytes(s, "utf-8")] and [s.encode("utf-8")]: a string here is the
    sequence of its UTF-8 bytes already. *)
Definition encode_utf8 (s : string) : list Byte.byte := list_byte_of_string s.

Definition hex_char (n : N) : ascii :=
  if (n <? 10)%N then ascii_of_N (48 + n) else ascii_of_N (87 + n).

(** [data.hex()]: two lower-case hexadecimal digits a byte. *)
Fixpoint hex (data : list Byte.byte) : string :=
  match data with
  | [] => EmptyString
  | b :: data' =>
      String (hex_char (Byte.to_N b / 16))
        (String (hex_char (Byte.to_N b mod 16)) (hex data'))
  end.

Definition upper_char (c : ascii) : ascii :=
  if in_range 97 122 c then ascii_of_N (N_of_ascii c - 32) else c.

(** [s.upper()] on ASCII text. *)
Fixpoint upper (s : string) : string :=
  match s with
  | EmptyString => EmptyString
  | String c s' => String (upper_char c) (upper s')
  end.

(** Truth value of a number: [0] is false. *)
Definition truthy (n : N) : bool := negb (n =? 0)%N.

(** [x in l] on a list of strings. *)
Definition contains (l : list string) (x : string) : bool :=
  bool_decide (x ∈ l).

(** [itertools.filterfalse]. *)
Definition filterfalse {A} (p : A -> bool) (l : list A) : list A :=
  List.filter (fun x => negb (p x)) l.

(** [list(map(f, l))] where [f] may raise: the first exception wins. *)
Fixpoint map_raising {A B} (f : A -> result B) (l : list A) : result (list B) :=
  match l with
  | [] => Return []
  | x :: l' => y <-- f x ;; ys <-- map_raising f l' ;; Return (y :: ys)
  end.

(** [collections.Counter(l)]: a dict from element to its (positive)
    number of occurrences. *)
Definition Counter (l : list string) : gmap string nat :=
  foldr (fun x m => <[x := S (default 0 (m !! x))]> m) ∅ l.

End Py.

(** ** sdp.py *)
Module SDP.

(** As per Bluetooth Assigned Numbers. *)
Definition UUID_TO_SERVICE_NAME : gmap N string :=
  list_to_map [
    (0x1105%N, "OBEXObjectPush");
    (0x110A%N, "AudioSource");
    (0x110C%N, "A/V_RemoteControlTarget");
    (0x110E%N, "A/V_RemoteControl");
    (0x110F%N, "A/V_RemoteControlController");
    (0x1112%N, "Headset - Audio Gateway");
    (0x1115%N, "PANU");
    (0x1116%N, "NAP");
    (0x111F%N, "HandsfreeAudioGateway");
    (0x112F%N, "Phonebook Access - PSE");
    (0x1132%N, "Message Access Server");
    (0x1203%N, "GenericAudio");
    (0x1800%N, "Generic Access");
    (0x1801%N, "Generic Attribute service");
    (0x1855%N, "TMAS");
    (0xc26cf57233694cf2b5ccd2cd130f5b2c%N, "Android Auto Compatibility")
  ].

Definition expected_services : list string := [
  "Generic Attribute service";
  "Generic Access";
  "AudioSource";
  "A/V_RemoteControlTarget";
  "A/V_RemoteControl";
  "A/V_RemoteControlController";
  "Headset - Audio Gateway";
  "GenericAudio";
  "HandsfreeAudioGateway";
  "GenericAudio";
  "Message Access Server";
  "NAP";
  "PANU";
  "TMAS";
  "Phonebook Access - PSE";
  "OBEXObjectPush";
  "Android Auto Compatibility"
].

Definition optional_services : list string := [
  "Generic Attribute service";
  "A/V_RemoteControlController";
  "Android Auto Compatibility";
  "TMAS"
].

(** Service that can be in any order. *)
Definition movable_services : list string := [
  "Message Access Server";
  "TMAS"
].

(** [test.assertCountEqual(first, second)]: the two [Counter]s are
    compared. *)
Definition assertCountEqual (first second : list string) : result unit :=
  if bool_decide (Py.Counter first = Py.Counter second)
  then Return tt
  else Raise (AssertionError (CountsNotEqual first second)).

(** [test.assertEqual(first, second)] on two lists. *)
Definition assertEqual (first second : list string) : result unit :=
  if bool_decide (first = second)
  then Return tt
  else Raise (AssertionError (NotEqual first second)).

(** [lambda uuid: UUID_TO_SERVICE_NAME.get(int(uuid, 16), uuid)] *)
Definition service_name (uuid : string) : result string :=
  n <-- Py.int_16 uuid ;;
  Return (default uuid (UUID_TO_SERVICE_NAME !! n)).

(** [lambda service: service in optional_services and
                     service not in reported_services] *)
Definition optional_not_present (reported_services : list string)
    (service : string) : bool :=
  Py.contains optional_services service
  && negb (Py.contains reported_services service).

(** The two lists after "Remove optional services from expected &
    movable list". *)
Definition expected_of (reported_services : list string) : list string :=
  Py.filterfalse (optional_not_present reported_services) expected_services.

Definition movable_of (reported_services : list string) : list string :=
  Py.filterfalse (optional_not_present reported_services) movable_services.

(** The body of the handler from the translated list on. *)
Definition compare_services (reported_services : list string) : result string :=
  let expected_services := expected_of reported_services in
  let movable_services := movable_of reported_services in
  (* 1st: the movable services are present in whatever order *)
  let movable_services_names_without_optional :=
    List.filter (Py.contains movable_services) reported_services in
  assertCountEqual movable_services_names_without_optional movable_services ;;;
  (* 2nd: all the services except the movable are in the specified order *)
  let reported_services :=
    Py.filterfalse (Py.contains movable_services) reported_services in
  let expected_services_without_movable :=
    Py.filterfalse (Py.contains movable_services) expected_services in
  assertEqual reported_services expected_services_without_movable ;;;
  Return "OK".

Definition TSC_SDP_mmi_verify_browsable_services (uuids : string) : result string :=
  let uuid_list := Py.split ", " uuids in
  reported_services <-- Py.map_raising service_name uuid_list ;;
  compare_services reported_services.

(** The prompt pattern [(?:0x[0-9A-F]+, )+0x[0-9A-F]+] that
    [match_description] captures [uuids] with. *)
Definition uuid_literal (s : string) : bool :=
  match s with
  | String "0" (String "x" (String c ds)) =>
      forallb Py.is_upper_hex (c :: list_ascii_of_string ds)
  | _ => false
  end.

Definition prompt_uuids (uuids : string) : bool :=
  let l := Py.split ", " uuids in
  (2 <=? List.length l)%nat && forallb uuid_literal l.

End SDP.

(** ** sm.py *)
Module SM.

(** A pairing event as [task] reads it: the truth values of
    [event.just_works] and [event.passkey_entry_request] and the number
    [event.numeric_comparison] (l2cap.py compares it with
    [int(passkey)]). *)
Record PairingEvent : Type := {
  just_works : bool;
  numeric_comparison : N;
  passkey_entry_request : bool
}.

Inductive answer : Type :=
  | confirm (b : bool)
  | passkey (n : N).

(** [PairingEventAnswer(event=..., confirm=...)] or
    [PairingEventAnswer(event=..., passkey=...)]. *)
Record PairingEventAnswer : Type := {
  event : PairingEvent;
  answer_of : answer
}.

(** What the responder does that can be seen from outside: an answer
    sent on the pairing stream, a [get] on the passkey queue with its
    timeout and what it got, a line on stderr. *)
Inductive io : Type :=
  | Sent (a : PairingEventAnswer)
  | Got (timeout : N) (item : option string)
  | Debug (msg : string).

(** The proxy: [self.passkey_queue], oldest value first, and the trace
    of the responder.  The queue holds the values that are there when a
    [get] ends its wait: those put before and those put while it
    waits. *)
Record SMProxy : Type := {
  passkey_queue : list string;
  trace : list io
}.

Definition log (x : io) : proc SMProxy unit :=
  modify (fun st => {| passkey_queue := passkey_queue st;
                       trace := trace st ++ [x] |}).

(** [Queue.put(item)] *)
Definition Queue_put (item : string) : proc SMProxy unit :=
  modify (fun st => {| passkey_queue := passkey_queue st ++ [item];
                       trace := trace st |}).

(** [Queue.get(timeout=...)]: the oldest value, or [Empty] when none
    has come by the end of the wait. *)
Definition Queue_get (timeout : N) : proc SMProxy string :=
  fun st =>
    match passkey_queue st with
    | [] =>
        ({| passkey_queue := []; trace := trace st ++ [Got timeout None] |},
         Raise Empty)
    | item :: rest =>
        ({| passkey_queue := rest;
            trace := trace st ++ [Got timeout (Some item)] |},
         Return item)
    end.

(** [pairing_events.send(answer)] *)
Definition pairing_events_send (a : PairingEventAnswer) : proc SMProxy unit :=
  log (Sent a).

Definition debug (msg : string) : proc SMProxy unit := log (Debug msg).

Definition MMI_DISPLAY_PASSKEY_CODE (passkey : string) : proc SMProxy string :=
  Queue_put passkey >> ret "OK".

(** The body of [for event in pairing_events] in [task]. *)
Definition answer_event (event : PairingEvent) : proc SMProxy unit :=
  (if just_works event || Py.truthy (numeric_comparison event)
   then pairing_events_send {| event := event; answer_of := confirm true |}
   else ret tt) >>
  if passkey_entry_request event
  then
    try_except
      (let! passkey_str := Queue_get 15 in
       let! n := lift (Py.int_10 passkey_str) in
       pairing_events_send {| event := event; answer_of := passkey n |})
      (fun e =>
         match e with
         | Empty => Some (debug "No passkey provided within 15 seconds")
         | _ => None
         end)
  else ret tt.

(** [task] on the events the stream delivers: an exception that leaves
    the body ends the loop and the thread. *)
Fixpoint task (pairing_events : list PairingEvent) : proc SMProxy unit :=
  match pairing_events with
  | [] => ret tt
  | event :: rest => answer_event event >> task rest
  end.

(** The variants of a pairing event. *)
Inductive variant : Type :=
  | JustWorks
  | NumericComparison (number : N)
  | PasskeyEntryRequest.

(** Modelled from the spec: the message type [PairingEvent] of
    [pandora.security_pb2] is not among the sources.  An event carries
    one of the variants of the spec.  How its fields read is that of
    generated protobuf messages: [just_works] and
    [passkey_entry_request] are fields that hold a message, and reading
    one gives a message object, which is true in Python on every event,
    whether or not the field is the variant the event carries;
    [numeric_comparison] is a number and reads 0 unless it is the
    variant. *)
Definition event_of (v : variant) : PairingEvent :=
  match v with
  | JustWorks =>
      {| just_works := true; numeric_comparison := 0;
         passkey_entry_request := true |}
  | NumericComparison number =>
      {| just_works := true; numeric_comparison := number;
         passkey_entry_request := true |}
  | PasskeyEntryRequest =>
      {| just_works := true; numeric_comparison := 0;
         passkey_entry_request := true |}
  end.

(** The answers sent, in order, and the number of waits on the queue. *)
Definition answers (t : list io) : list PairingEventAnswer :=
  omap (fun x => match x with Sent a => Some a | _ => None end) t.

(** The number of answers sent with [confirm=...]. *)
Definition confirmations (t : list io) : nat :=
  List.length (List.filter
    (fun x => match x with
              | Sent {| answer_of := confirm _ |} => true
              | _ => false
              end) t).

Definition waits (t : list io) : nat :=
  List.length (List.filter (fun x => match x with Got _ _ => true | _ => false end) t).

(** The answers sent with [passkey=...]. *)
Definition passkey_answers (t : list io) : list PairingEventAnswer :=
  List.filter
    (fun a => match answer_of a with passkey _ => true | confirm _ => false end)
    (answers t).

(** What the first [if] of the body adds to the trace for an event. *)
Definition confirmation (event : PairingEvent) : list io :=
  if just_works event || Py.truthy (numeric_comparison event)
  then [Sent {| event := event; answer_of := confirm true |}]
  else [].

End SM.

(** ** l2cap.py *)
Module L2CAP.

Definition Connection : Type := string.
Definition Channel : Type := string.

(** The response of [l2cap.Connect]: it has the field [channel] or the
    field [error]. *)
Inductive ConnectResponse : Type :=
  | has_channel (channel : Channel)
  | has_error (error : string).

(** Remote calls, as they are made. *)
Inductive rpc : Type :=
  | next_advertise
  | Connect_call (connection : Connection) (spsm : N)
  | Send_call (channel : Channel) (data : list Byte.byte).

(** A line printed on stderr: text, or text followed by an exception. *)
Inductive line : Type :=
  | Printed (text : string)
  | PrintedExn (text : string) (e : exn).

(** The proxy object.  [test_status_map] is the dict of the class,
    shared by every handler; [advertise] is the stream
    [MMI_TESTER_ENABLE_LE_CONNECTION] stores ([None] before that), as
    the connections it is going to yield. *)
Record L2CAPProxy : Type := {
  test_status_map : gmap string string;
  connection : option Connection;
  channel : option Channel;
  advertise : option (list Connection);
  calls : list rpc;
  stderr : list line
}.

Definition LE_DATA_PACKET_LARGE : string := "data: LE_DATA_PACKET_LARGE".
Definition LE_DATA_PACKET1 : string := "data: LE_PACKET1".

Definition set_connection (c : option Connection) : proc L2CAPProxy unit :=
  modify (fun st =>
    {| test_status_map := test_status_map st; connection := c;
       channel := channel st; advertise := advertise st;
       calls := calls st; stderr := stderr st |}).

Definition set_channel (c : option Channel) : proc L2CAPProxy unit :=
  modify (fun st =>
    {| test_status_map := test_status_map st; connection := connection st;
       channel := c; advertise := advertise st;
       calls := calls st; stderr := stderr st |}).

(** [self.test_status_map[test] = status] *)
Definition set_status (test status : string) : proc L2CAPProxy unit :=
  modify (fun st =>
    {| test_status_map := <[test := status]> (test_status_map st);
       connection := connection st; channel := channel st;
       advertise := advertise st; calls := calls st; stderr := stderr st |}).

(** [self.test_status_map[test]] *)
Definition get_status (test : string) : proc L2CAPProxy string :=
  fun st =>
    match test_status_map st !! test with
    | Some status => (st, Return status)
    | None => (st, Raise (KeyError test))
    end.

Definition called (c : rpc) : proc L2CAPProxy unit :=
  modify (fun st =>
    {| test_status_map := test_status_map st; connection := connection st;
       channel := channel st; advertise := advertise st;
       calls := calls st ++ [c]; stderr := stderr st |}).

Definition print (l : line) : proc L2CAPProxy unit :=
  modify (fun st =>
    {| test_status_map := test_status_map st; connection := connection st;
       channel := channel st; advertise := advertise st;
       calls := calls st; stderr := stderr st ++ [l] |}).

(** [next(self.advertise).connection] *)
Definition next_advertise_connection : proc L2CAPProxy Connection :=
  fun st =>
    match advertise st with
    | None => (st, Raise (AttributeError "advertise"))
    | Some [] =>
        ({| test_status_map := test_status_map st; connection := connection st;
            channel := channel st; advertise := Some [];
            calls := calls st ++ [next_advertise]; stderr := stderr st |},
         Raise StopIteration)
    | Some (c :: rest) =>
        ({| test_status_map := test_status_map st; connection := connection st;
            channel := channel st; advertise := Some rest;
            calls := calls st ++ [next_advertise]; stderr := stderr st |},
         Return c)
    end.

(** [assert cond, msg] *)
Definition assert_ (cond : bool) (msg : string) : proc L2CAPProxy unit :=
  if cond then ret tt else raise (AssertionError (AssertMsg msg)).

Definition tests_target_to_fail : list string := [
  "L2CAP/LE/CFC/BV-01-C";
  "L2CAP/LE/CFC/BV-04-C";
  "L2CAP/LE/CFC/BV-14-C";
  "L2CAP/LE/CFC/BV-16-C";
  "L2CAP/LE/CFC/BV-18-C";
  "L2CAP/LE/CFC/BV-19-C";
  "L2CAP/LE/CFC/BV-21-C"
].

(** The [psm] of the request: the default TSPX_spsm value, or the
    TSPX value of the test. *)
Definition spsm_of (test : string) : N :=
  let psm := 0x25%N in
  let psm := if test =? "L2CAP/LE/CFC/BV-04-C" then 0xF1%N else psm in
  let psm := if test =? "L2CAP/LE/CFC/BV-10-C" then 0xF2%N else psm in
  let psm := if test =? "L2CAP/LE/CFC/BV-12-C" then 0xF3%N else psm in
  psm.

Section Remote.

(** The remote service: what [l2cap.Connect] and [l2cap.Send] answer. *)
Variable l2cap_Connect : Connection -> N -> result ConnectResponse.
Variable l2cap_Send : Channel -> list Byte.byte -> result unit.

Definition Connect (c : Connection) (spsm : N) : proc L2CAPProxy ConnectResponse :=
  called (Connect_call c spsm) >> lift (l2cap_Connect c spsm).

Definition Send (c : Channel) (data : list Byte.byte) : proc L2CAPProxy unit :=
  called (Send_call c data) >> lift (l2cap_Send c data).

Definition MMI_IUT_SEND_LE_CREDIT_BASED_CONNECTION_REQUEST
    (test : string) (pts_addr : list Byte.byte) : proc L2CAPProxy string :=
  let! self_connection := gets connection in
  if bool_decide (is_Some self_connection) && (test =? "L2CAP/LE/CFC/BV-02-C")
  then ret "OK"
  else
    assert_ (bool_decide (self_connection = None))
      "the connection should be None for the first call" >>
    let! c := next_advertise_connection in
    set_connection (Some c) >>
    let psm := spsm_of test in
    try_except
      (let! connect_response := Connect c psm in
       match connect_response with
       | has_channel ch => set_channel (Some ch)
       | has_error error => raise (Exception error)
       end >>
       ret "OK")
      (fun e => Some (
         if Py.contains tests_target_to_fail test
         then
           set_status test "OK" >>
           print (Printed (test +:+ " target to fail")) >>
           ret "OK"
         else
           print (PrintedExn (test +:+ " CreateLECreditBasedChannel failed") e) >>
           raise e)).

Definition MMI_UPPER_TESTER_SEND_LE_DATA_PACKET_LARGE : proc L2CAPProxy string :=
  let! self_channel := gets channel in
  match self_channel with
  | None => raise (AssertionError (AssertMsg ""))
  | Some ch =>
      Send ch (Py.encode_utf8 LE_DATA_PACKET_LARGE) >>
      ret "OK"
  end.

Definition MMI_UPPER_TESTER_SEND_LE_DATA_PACKET1 : proc L2CAPProxy string :=
  let! self_channel := gets channel in
  match self_channel with
  | None => raise (AssertionError (AssertMsg ""))
  | Some ch =>
      Send ch (Py.encode_utf8 LE_DATA_PACKET1) >>
      ret "OK"
  end.

End Remote.

Definition MMI_UPPER_TESTER_CONFIRM_LE_DATA (sent_data test : string)
    : proc L2CAPProxy string :=
  let hex_LE_DATA_PACKET :=
    if test =? "L2CAP/COS/CFC/BV-02-C"
    then Py.upper (Py.hex (Py.encode_utf8 LE_DATA_PACKET1))
    else Py.upper (Py.hex (Py.encode_utf8 LE_DATA_PACKET_LARGE)) in
  if negb (sent_data =? hex_LE_DATA_PACKET)
  then
    print (Printed ("data not match, sent_data:" +:+ sent_data +:+ " and "
                    +:+ hex_LE_DATA_PACKET)) >>
    raise (Exception ("data not match, sent_data:" +:+ sent_data +:+ " and "
                      +:+ hex_LE_DATA_PACKET))
  else ret "OK".

Definition MMI_UPPER_TESTER_CONFIRM_RECEIVE_COMMAND_NOT_UNDERSTAOOD
    (test : string) : proc L2CAPProxy string :=
  let! status := get_status test in
  if negb (status =? "OK")
  then
    print (Printed "error in MI_UPPER_TESTER_CONFIRM_RECEIVE_COMMAND_NOT_UNDERSTAOOD") >>
    raise (Exception "Unexpected RECEIVE_COMMAND")
  else ret "OK".

Definition MMI_UPPER_TESTER_CONFIRM_RECEIVE_REJECT_PSM
    (test : string) : proc L2CAPProxy string :=
  let! status := get_status test in
  if negb (status =? "OK")
  then
    print (Printed "error in MMI_UPPER_TESTER_CONFIRM_RECEIVE_REJECT_PSM") >>
    raise (Exception "Unexpected RECEIVE_COMMAND")
  else ret "OK".

Definition MMI_UPPER_TESTER_CONFIRM_RECEIVE_REJECT_AUTHENTICATION
    (test : string) : proc L2CAPProxy string :=
  let! status := get_status test in
  if negb (status =? "OK")
  then
    print (Printed "error in MMI_UPPER_TESTER_CONFIRM_RECEIVE_REJECT_AUTHENTICATION") >>
    raise (Exception "Unexpected RECEIVE_COMMAND")
  else ret "OK".

Definition MMI_IUT_SEND_INSUFFICIENT_AUTHENTICATION_ON_LE
    (test : string) : proc L2CAPProxy string :=
  let! status := get_status test in
  if negb (status =? "OK")
  then
    print (Printed "error in _mmi_135") >>
    raise (Exception "Unexpected RECEIVE_COMMAND")
  else ret "OK".

Definition _mmi_135 (test : string) : proc L2CAPProxy string :=
  MMI_IUT_SEND_INSUFFICIENT_AUTHENTICATION_ON_LE test.

Definition MMI_UPPER_TESTER_CONFIRM_RECEIVE_REJECT_AUTHORIZATION
    (test : string) : proc L2CAPProxy string :=
  let! status := get_status test in
  if negb (status =? "OK")
  then
    print (Printed "error in MMI_UPPER_TESTER_CONFIRM_RECEIVE_REJECT_AUTHORIZATION") >>
    raise (Exception "Unexpected RECEIVE_COMMAND")
  else ret "OK".

Definition MMI_UPPER_TESTER_CONFIRM_RECEIVE_REJECT_ENCRYPTION_KEY_SIZE
    (test : string) : proc L2CAPProxy string :=
  let! status := get_status test in
  if negb (status =? "OK")
  then
    print (Printed "error in MMI_UPPER_TESTER_CONFIRM_RECEIVE_REJECT_ENCRYPTION_KEY_SIZE") >>
    raise (Exception "Unexpected RECEIVE_COMMAND")
  else ret "OK".

Definition MMI_UPPER_TESTER_CONFIRM_RECEIVE_REJECT_INVALID_SOURCE_CID
    (test : string) : proc L2CAPProxy string :=
  let! status := get_status test in
  if negb (status =? "OK")
  then
    print (Printed "error in MMI_UPPER_TESTER_CONFIRM_RECEIVE_REJECT_INVALID_SOURCE_CID") >>
    raise (Exception "Unexpected RECEIVE_COMMAND")
  else ret "OK".

Definition MMI_UPPER_TESTER_CONFIRM_RECEIVE_REJECT_SOURCE_CID_ALREADY_ALLOCATED
    (test : string) : proc L2CAPProxy string :=
  let! status := get_status test in
  if negb (status =? "OK")
  then
    print (Printed "error in MMI_UPPER_TESTER_CONFIRM_RECEIVE_REJECT_SOURCE_CID_ALREADY_ALLOCATED") >>
    raise (Exception "Unexpected RECEIVE_COMMAND")
  else ret "OK".

Definition MMI_UPPER_TESTER_CONFIRM_RECEIVE_REJECT_UNACCEPTABLE_PARAMETERS
    (test : string) : proc L2CAPProxy string :=
  let! status := get_status test in
  if negb (status =? "OK")
  then
    print (Printed "error in MMI_UPPER_TESTER_CONFIRM_RECEIVE_REJECT_UNACCEPTABLE_PARAMETERS") >>
    raise (Exception "Unexpected RECEIVE_COMMAND")
  else ret "OK".

Definition MMI_UPPER_TESTER_CONFIRM_RECEIVE_REJECT_RESOURCES
    (test : string) : proc L2CAPProxy string :=
  let! status := get_status test in
  if negb (status =? "OK")
  then
    print (Printed "error in MMI_UPPER_TESTER_CONFIRM_RECEIVE_REJECT_RESOURCES") >>
    raise (Exception "Unexpected RECEIVE_COMMAND")
  else ret "OK".

(** Every handler that reads [test_status_map]. *)
Definition status_readers : list (string -> proc L2CAPProxy string) := [
  MMI_UPPER_TESTER_CONFIRM_RECEIVE_COMMAND_NOT_UNDERSTAOOD;
  MMI_UPPER_TESTER_CONFIRM_RECEIVE_REJECT_PSM;
  MMI_UPPER_TESTER_CONFIRM_RECEIVE_REJECT_AUTHENTICATION;
  _mmi_135;
  MMI_IUT_SEND_INSUFFICIENT_AUTHENTICATION_ON_LE;
  MMI_UPPER_TESTER_CONFIRM_RECEIVE_REJECT_AUTHORIZATION;
  MMI_UPPER_TESTER_CONFIRM_RECEIVE_REJECT_ENCRYPTION_KEY_SIZE;
  MMI_UPPER_TESTER_CONFIRM_RECEIVE_REJECT_INVALID_SOURCE_CID;
  MMI_UPPER_TESTER_CONFIRM_RECEIVE_REJECT_SOURCE_CID_ALREADY_ALLOCATED;
  MMI_UPPER_TESTER_CONFIRM_RECEIVE_REJECT_UNACCEPTABLE_PARAMETERS;
  MMI_UPPER_TESTER_CONFIRM_RECEIVE_REJECT_RESOURCES
].

End L2CAP.

(** ** Vocabulary of the properties *)

(** The three lists the two assertions compare. *)
Definition movable_reported (reported : list string) : list string :=
  List.filter (Py.contains (SDP.movable_of reported)) reported.
Definition fixed_reported (reported : list string) : list string :=
  Py.filterfalse (Py.contains (SDP.movable_of reported)) reported.
Definition fixed_expected (reported : list string) : list string :=
  Py.filterfalse (Py.contains (SDP.movable_of reported)) (SDP.expected_of reported).

(** [name] is what the lookup table gives for the UUID literal [uuid]:
    the service name of its number, or the literal itself when the
    number is not in the table. *)
Definition translates (uuid name : string) : Prop :=
  exists n, Py.int_16 uuid = Return n /\
    name = match SDP.UUID_TO_SERVICE_NAME !! n with
           | Some service => service
           | None => uuid
           end.

Definition insert_at {A} (i : nat) (x : A) (l : list A) : list A :=
  take i l ++ x :: drop i l.

(** The expected sequence, TMAS left out. *)
Definition expected_without_TMAS : list string :=
  Py.filterfalse (String.eqb "TMAS") SDP.expected_services.

(** The reported list with every occurrence of [s] taken out. *)
Definition without (s : string) (l : list string) : list string :=
  List.filter (fun x => bool_decide (x <> s)) l.

(** The payload the confirmation is about: the one
    [MMI_UPPER_TESTER_SEND_LE_DATA_PACKET1] sends for the test
    L2CAP/COS/CFC/BV-02-C, the one
    [MMI_UPPER_TESTER_SEND_LE_DATA_PACKET_LARGE] sends for another. *)
Definition payload_of (test : string) : list Byte.byte :=
  if test =? "L2CAP/COS/CFC/BV-02-C"
  then Py.encode_utf8 L2CAP.LE_DATA_PACKET1
  else Py.encode_utf8 L2CAP.LE_DATA_PACKET_LARGE.

(** The call [l2cap.Connect] fails with [e]: it raises [e], or its
    response has no channel and [e] is the exception made of its
    error. *)
Definition connect_fails (l2cap_Connect : L2CAP.Connection -> N -> result L2CAP.ConnectResponse)
    (c : L2CAP.Connection) (spsm : N) (e : exn) : Prop :=
  l2cap_Connect c spsm = Raise e \/
  exists error, l2cap_Connect c spsm = Return (L2CAP.has_error error) /\
                e = Exception error.

(** ** l2cap.py: the handlers around the connection request *)
Module L2CAPSession.

(** The response of [l2cap.WaitConnection]: the field [channel] or the
    field [error]. *)
Inductive WaitConnectionResponse : Type :=
  | wait_channel (channel : L2CAP.Channel)
  | wait_error (error : string).

(** The remote calls of these handlers. *)
Inductive rpc : Type :=
  | Advertise_call
  | WaitConnection_call (spsm : N)
  | Receive_call (channel : L2CAP.Channel)
  | ConnectLE_call (public : list Byte.byte)
  | Disconnect_call (connection : option L2CAP.Connection)
  | OnPairing_call
  | host_Connect_call (address : list Byte.byte).

(** The proxy with what these handlers use besides: [self.pairing_events]
    ([None], or the events the stream is going to deliver), the answers
    sent on that stream and the calls to the host and security services. *)
Record Proxy : Type := {
  proxy : L2CAP.L2CAPProxy;
  pairing_events : option (list SM.PairingEvent);
  answers : list SM.PairingEventAnswer;
  host_calls : list rpc
}.

(** A handler of the L2CAP module run on this proxy. *)
Definition on_proxy {A} (m : proc L2CAP.L2CAPProxy A) : proc Proxy A :=
  fun s =>
    let (p, r) := m (proxy s) in
    ({| proxy := p; pairing_events := pairing_events s;
        answers := answers s; host_calls := host_calls s |}, r).

Definition called (c : rpc) : proc Proxy unit :=
  modify (fun s =>
    {| proxy := proxy s; pairing_events := pairing_events s;
       answers := answers s; host_calls := host_calls s ++ [c] |}).

Definition set_pairing_events (events : option (list SM.PairingEvent)) : proc Proxy unit :=
  modify (fun s =>
    {| proxy := proxy s; pairing_events := events;
       answers := answers s; host_calls := host_calls s |}).

Definition set_advertise (stream : option (list L2CAP.Connection))
    : proc L2CAP.L2CAPProxy unit :=
  modify (fun st =>
    {| L2CAP.test_status_map := L2CAP.test_status_map st;
       L2CAP.connection := L2CAP.connection st;
       L2CAP.channel := L2CAP.channel st; L2CAP.advertise := stream;
       L2CAP.calls := L2CAP.calls st; L2CAP.stderr := L2CAP.stderr st |}).

(** [L2CAPProxy(channel, rootcanal)]: [__init__] sets the connection,
    the pairing events and the channel to [None]; it stores no
    advertise stream, and [test_status_map] is the dict of the class as
    it is. *)
Definition __init__ (test_status_map : gmap string string) : Proxy :=
  {| proxy :=
       {| L2CAP.test_status_map := test_status_map;
          L2CAP.connection := None; L2CAP.channel := None;
          L2CAP.advertise := None; L2CAP.calls := []; L2CAP.stderr := [] |};
     pairing_events := None; answers := []; host_calls := [] |}.

Definition tests_to_open_bluetooth_server_socket : list string := [
  "L2CAP/COS/CFC/BV-01-C";
  "L2CAP/COS/CFC/BV-02-C";
  "L2CAP/COS/CFC/BV-03-C";
  "L2CAP/COS/CFC/BV-04-C";
  "L2CAP/LE/CFC/BV-03-C";
  "L2CAP/LE/CFC/BV-06-C";
  "L2CAP/LE/CFC/BV-09-C";
  "L2CAP/LE/CFC/BV-20-C";
  "L2CAP/LE/CFC/BI-01-C"
].

Definition tests_to_skip_disconnect : list string := [
  "L2CAP/COS/CED/BV-01-C";
  "L2CAP/COS/CED/BV-04-C";
  "L2CAP/COS/CED/BV-09-C";
  "L2CAP/COS/CFD/BV-08-C";
  "L2CAP/CMC/BI-05-C";
  "L2CAP/CMC/BI-06-C"
].

Definition LE_DATA_PACKET4 : string :=
  "this is a large data package with at least 4 frames: MMI_UPPER_TESTER_SEND_LE_DATA_PACKET_LARGE".

(** How a handler that goes through [self.pairing_events] ends: as any
    other, or with the [TypeError] of a [for] over [None]. *)
Inductive outcome (A : Type) : Type :=
  | Finished (r : result A)
  | TypeError (msg : string).
Arguments Finished {A} r.
Arguments TypeError {A} msg.

Section Remote.

(** The remote services: the connections the stream of [host.Advertise]
    is going to yield, the events the stream of [security.OnPairing] is
    going to deliver, the data of the first packet of [l2cap.Receive],
    and what the other calls answer. *)
Variable host_Advertise : list L2CAP.Connection.
Variable l2cap_WaitConnection : N -> result WaitConnectionResponse.
Variable l2cap_Receive : L2CAP.Channel -> result (list Byte.byte).
Variable l2cap_Send : L2CAP.Channel -> list Byte.byte -> result unit.
Variable host_ConnectLE : list Byte.byte -> result L2CAP.Connection.
Variable host_Disconnect : option L2CAP.Connection -> result unit.
Variable host_Connect : list Byte.byte -> result L2CAP.Connection.
Variable security_OnPairing : list SM.PairingEvent.

Definition MMI_TESTER_ENABLE_LE_CONNECTION (test : string) : proc Proxy string :=
  called Advertise_call >>
  on_proxy (set_advertise (Some host_Advertise)) >>
  (if Py.contains tests_to_open_bluetooth_server_socket test
   then
     let! wait_connection_response :=
       called (WaitConnection_call 0) >> lift (l2cap_WaitConnection 0%N) in
     match wait_connection_response with
     | wait_channel ch => on_proxy (L2CAP.set_channel (Some ch))
     | wait_error error => raise (Exception error)
     end
   else ret tt) >>
  ret "OK".

Definition MMI_UPPER_TESTER_SEND_LE_DATA_PACKET4 : proc L2CAP.L2CAPProxy string :=
  let! self_channel := gets L2CAP.channel in
  match self_channel with
  | None => raise (AssertionError (AssertMsg ""))
  | Some ch =>
      L2CAP.Send l2cap_Send ch (Py.encode_utf8 LE_DATA_PACKET4) >>
      ret "OK"
  end.

Definition MMI_UPPER_TESTER_SEND_LE_DATA_PACKET_CONTINUE : proc L2CAP.L2CAPProxy string :=
  let! self_channel := gets L2CAP.channel in
  match self_channel with
  | None => raise (AssertionError (AssertMsg ""))
  | Some ch =>
      L2CAP.Send l2cap_Send ch (Py.encode_utf8 LE_DATA_PACKET4) >>
      ret "OK"
  end.

Definition MMI_UPPER_TESTER_CONFIRM_DATA_RECEIVE : proc Proxy string :=
  let! self_channel := on_proxy (gets L2CAP.channel) in
  match self_channel with
  | None => raise (AssertionError (AssertMsg ""))
  | Some ch =>
      let! data := called (Receive_call ch) >> lift (l2cap_Receive ch) in
      match data with
      | [] => raise (AssertionError (AssertMsg "data received should not be empty"))
      | _ :: _ => ret "OK"
      end
  end.

Definition MMI_IUT_ENABLE_LE_CONNECTION (pts_addr : list Byte.byte) : proc Proxy string :=
  let! c := called (ConnectLE_call pts_addr) >> lift (host_ConnectLE pts_addr) in
  on_proxy (L2CAP.set_connection (Some c)) >>
  ret "OK".

Definition MMI_IUT_SEND_ACL_DISCONNECTION (test : string) : proc Proxy string :=
  (if negb (Py.contains tests_to_skip_disconnect test)
   then
     let! self_connection := on_proxy (gets L2CAP.connection) in
     called (Disconnect_call self_connection) >>
     lift (host_Disconnect self_connection)
   else ret tt) >>
  ret "OK".

Definition MMI_IUT_INITIATE_ACL_CONNECTION (pts_addr : list Byte.byte) : proc Proxy string :=
  called OnPairing_call >>
  set_pairing_events (Some security_OnPairing) >>
  let! c := called (host_Connect_call pts_addr) >> lift (host_Connect pts_addr) in
  on_proxy (L2CAP.set_connection (Some c)) >>
  ret "OK".

End Remote.

(** [for event in self.pairing_events]: the first pass of the loop
    returns or fails its assertion, so one event at most is taken off
    the stream. *)
Definition _mmi_2001 (s : Proxy) : Proxy * outcome string :=
  let passkey := "000000" in
  match pairing_events s with
  | None => (s, TypeError "'NoneType' object is not iterable")
  | Some [] =>
      (s, Finished (Raise (AssertionError (AssertMsg "Unexpected pairing event"))))
  | Some (event :: rest) =>
      let s := {| proxy := proxy s; pairing_events := Some rest;
                  answers := answers s; host_calls := host_calls s |} in
      match Py.int_10 passkey with
      | Raise e => (s, Finished (Raise e))
      | Return n =>
          if (SM.numeric_comparison event =? n)%N
          then
            ({| proxy := proxy s; pairing_events := pairing_events s;
                answers := answers s ++
                  [{| SM.event := event; SM.answer_of := SM.confirm true |}];
                host_calls := host_calls s |},
             Finished (Return "OK"))
          else
            (s, Finished (Raise (AssertionError
                                   (AssertMsg "The passkey does not match"))))
      end
  end.

End L2CAPSession.

(** ** sm.py: the handlers on the connection *)
Module SMHost.

Inductive rpc : Type :=
  | ConnectLE_call (public : list Byte.byte)
  | Connect_call (address : list Byte.byte)
  | Secure_call (connection : L2CAP.Connection)
  | Disconnect_call (connection : option L2CAP.Connection)
  | Reset_call
  | Advertise_call.

(** [self.connection], [self.advertise] and the calls made. *)
Record SMProxy : Type := {
  connection : option L2CAP.Connection;
  advertise : option (list L2CAP.Connection);
  calls : list rpc
}.

Definition called (c : rpc) : proc SMProxy unit :=
  modify (fun st =>
    {| connection := connection st; advertise := advertise st;
       calls := calls st ++ [c] |}).

Definition set_connection (c : option L2CAP.Connection) : proc SMProxy unit :=
  modify (fun st =>
    {| connection := c; advertise := advertise st; calls := calls st |}).

Definition set_advertise (a : option (list L2CAP.Connection)) : proc SMProxy unit :=
  modify (fun st =>
    {| connection := connection st; advertise := a; calls := calls st |}).

Section Remote.

Variable host_ConnectLE : list Byte.byte -> result L2CAP.Connection.
Variable host_Connect : list Byte.byte -> result L2CAP.Connection.
Variable host_Disconnect : option L2CAP.Connection -> result unit.
Variable host_Reset : result unit.
Variable host_Advertise : list L2CAP.Connection.
Variable security_Secure : L2CAP.Connection -> result unit.

Definition MMI_IUT_ENABLE_CONNECTION_SM (pts_addr : list Byte.byte) : proc SMProxy string :=
  let! c := called (ConnectLE_call pts_addr) >> lift (host_ConnectLE pts_addr) in
  set_connection (Some c) >>
  ret "OK".

(** The function [secure] that [MMI_ASK_IUT_PERFORM_PAIRING_PROCESS]
    runs on a thread of its own. *)
Definition secure : proc SMProxy unit :=
  let! self_connection := gets connection in
  match self_connection with
  | Some c => called (Secure_call c) >> lift (security_Secure c)
  | None => ret tt
  end.

Definition MMI_IUT_SEND_DISCONNECTION_REQUEST : proc SMProxy string :=
  let! self_connection := gets connection in
  called (Disconnect_call self_connection) >>
  lift (host_Disconnect self_connection) >>
  set_connection None >>
  ret "OK".

Definition MMI_ASK_IUT_PERFORM_RESET : proc SMProxy string :=
  called Reset_call >> lift host_Reset >> ret "OK".

Definition MMI_TESTER_ENABLE_CONNECTION_SM : proc SMProxy string :=
  called Advertise_call >>
  set_advertise (Some host_Advertise) >>
  ret "OK".

Definition MMI_IUT_INITIATE_CONNECTION_BR_EDR_PAIRING (test : string)
    (pts_addr : list Byte.byte) : proc SMProxy string :=
  let! c := called (Connect_call pts_addr) >> lift (host_Connect pts_addr) in
  set_connection (Some c) >>
  ret "OK".

End Remote.

End SMHost.

(** ** opp.py *)
Module OPP.

Inductive rpc : Type :=
  | WaitConnection_call (address : list Byte.byte)
  | AcceptPutOperation_call
  | OpenRfcommChannel_call (address : list Byte.byte)
  | OpenL2capChannel_call (address : list Byte.byte).

Record OPPProxy : Type := {
  connection : option L2CAP.Connection;
  calls : list rpc
}.

Definition called (c : rpc) : proc OPPProxy unit :=
  modify (fun st => {| connection := connection st; calls := calls st ++ [c] |}).

Definition set_connection (c : option L2CAP.Connection) : proc OPPProxy unit :=
  modify (fun st => {| connection := c; calls := calls st |}).

Section Remote.

Variable host_WaitConnection : list Byte.byte -> result L2CAP.Connection.
Variable opp_AcceptPutOperation : result unit.
Variable opp_OpenRfcommChannel : list Byte.byte -> result unit.
Variable opp_OpenL2capChannel : list Byte.byte -> result unit.

Definition TSC_OBEX_MMI_iut_accept_connect_OPP (pts_addr : list Byte.byte)
    : proc OPPProxy string :=
  let! self_connection := gets connection in
  (if bool_decide (self_connection = None)
   then
     let! c := called (WaitConnection_call pts_addr) >>
               lift (host_WaitConnection pts_addr) in
     set_connection (Some c)
   else ret tt) >>
  ret "OK".

Definition TSC_OBEX_MMI_iut_accept_put : proc OPPProxy string :=
  called AcceptPutOperation_call >> lift opp_AcceptPutOperation >> ret "OK".

Definition TSC_OBEX_MMI_iut_accept_slc_connect_l2cap (pts_addr : list Byte.byte)
    : proc OPPProxy string :=
  let! c := called (WaitConnection_call pts_addr) >>
            lift (host_WaitConnection pts_addr) in
  set_connection (Some c) >>
  ret "OK".

Definition TSC_OBEX_MMI_iut_initiate_slc_connect_rfcomm (pts_addr : list Byte.byte)
    : proc OPPProxy string :=
  called (OpenRfcommChannel_call pts_addr) >>
  lift (opp_OpenRfcommChannel pts_addr) >>
  ret "OK".

Definition TSC_OBEX_MMI_iut_initiate_slc_connect_l2cap (pts_addr : list Byte.byte)
    : proc OPPProxy string :=
  called (OpenL2capChannel_call pts_addr) >>
  lift (opp_OpenL2capChannel pts_addr) >>
  ret "OK".

End Remote.

End OPP.


(** ** Vocabulary of the further properties *)

(** Which of the four optional services are reported, as the
    comparator needs it. *)
Definition presence (g a c t : bool) (s : string) : bool :=
  if s =? "Generic Attribute service" then g
  else if s =? "A/V_RemoteControlController" then a
  else if s =? "Android Auto Compatibility" then c
  else if s =? "TMAS" then t
  else false.

(** A list of services after the optional ones that are not present
    have been taken out. *)
Definition drop_absent (present : string -> bool) (l : list string) : list string :=
  Py.filterfalse
    (fun s => Py.contains SDP.optional_services s && negb (present s)) l.

(** * Properties *)

(** ** Python helpers *)

Lemma Counter_lookup (l : list string) (x : string) :
  Py.Counter l !! x =
  match count_occ String.string_dec l x with
  | O => None
  | S n => Some (S n)
  end.
Proof.
  induction l as [|a l IH]; simpl.
  - apply lookup_empty.
  - destruct (String.string_dec a x) as [->|Hne].
    + rewrite lookup_insert_eq, IH.
      by destruct (count_occ String.string_dec l x).
    + by rewrite lookup_insert_ne.
Qed.

Lemma Counter_eq_Permutation (a b : list string) :
  Py.Counter a = Py.Counter b <-> a ≡ₚ b.
Proof.
  rewrite (Permutation_count_occ String.string_dec). split.
  - intros Heq x.
    assert (H : Py.Counter a !! x = Py.Counter b !! x) by by rewrite Heq.
    rewrite !Counter_lookup in H.
    destruct (count_occ _ a x), (count_occ _ b x); congruence.
  - intros Hc. apply map_eq; intros x.
    by rewrite !Counter_lookup, Hc.
Qed.

Lemma filter_filter_andb {A} (f g : A -> bool) (l : list A) :
  List.filter f (List.filter g l) = List.filter (fun x => g x && f x) l.
Proof.
  induction l as [|a l IH]; simpl; [done|].
  destruct (g a); simpl; [destruct (f a)|]; by rewrite IH.
Qed.

Lemma filter_bool_Permutation {A} (f : A -> bool) (l1 l2 : list A) :
  l1 ≡ₚ l2 -> List.filter f l1 ≡ₚ List.filter f l2.
Proof.
  induction 1 as [|x l1 l2 _ IH|x y l|l1 l2 l3 _ IH1 _ IH2]; simpl.
  - done.
  - destruct (f x); by rewrite IH.
  - destruct (f x), (f y); try done. apply perm_swap.
  - by rewrite IH1.
Qed.

Lemma contains_true (l : list string) (x : string) :
  Py.contains l x = true <-> x ∈ l.
Proof. unfold Py.contains. apply bool_decide_eq_true. Qed.

Lemma contains_filter (f : string -> bool) (l : list string) (x : string) :
  Py.contains (List.filter f l) x = Py.contains l x && f x.
Proof.
  apply eq_true_iff_eq.
  rewrite andb_true_iff, !contains_true, !list_elem_of_In.
  apply filter_In.
Qed.

(** ** The service-list comparator *)

Example sdp_all_services :
  SDP.TSC_SDP_mmi_verify_browsable_services
    "0x1801, 0x1800, 0x110A, 0x110C, 0x110E, 0x110F, 0x1112, 0x1203, 0x111F, 0x1203, 0x1132, 0x1116, 0x1115, 0x1855, 0x112F, 0x1105, 0xC26CF57233694CF2B5CCD2CD130F5B2C"
  = Return "OK".
Proof. vm_compute. reflexivity. Qed.

Lemma assertCountEqual_Return (a b : list string) :
  SDP.assertCountEqual a b = Return tt <-> a ≡ₚ b.
Proof.
  unfold SDP.assertCountEqual. rewrite <- Counter_eq_Permutation.
  case_bool_decide; split; intros; done.
Qed.

Lemma assertEqual_Return (a b : list string) :
  SDP.assertEqual a b = Return tt <-> a = b.
Proof.
  unfold SDP.assertEqual. case_bool_decide; split; intros; done.
Qed.

Lemma compare_services_OK (reported : list string) :
  SDP.compare_services reported = Return "OK" <->
  movable_reported reported ≡ₚ SDP.movable_of reported /\
  fixed_reported reported = fixed_expected reported.
Proof.
  unfold SDP.compare_services, movable_reported, fixed_reported, fixed_expected.
  rewrite <- assertCountEqual_Return, <- assertEqual_Return.
  destruct (SDP.assertCountEqual _ _) as [[]|e]; simpl;
    [destruct (SDP.assertEqual _ _) as [[]|e']; simpl|]; split;
    try done; intros [? ?]; done.
Qed.

Lemma compare_services_total (reported : list string) :
  SDP.compare_services reported = Return "OK" \/
  is_assertion_error (SDP.compare_services reported).
Proof.
  unfold SDP.compare_services, SDP.assertCountEqual, SDP.assertEqual.
  repeat case_bool_decide; simpl; eauto; right; eexists; done.
Qed.

Lemma compare_services_fails (reported : list string) :
  is_assertion_error (SDP.compare_services reported) <->
  ~ movable_reported reported ≡ₚ SDP.movable_of reported \/
  fixed_reported reported <> fixed_expected reported.
Proof.
  pose proof (compare_services_OK reported) as HOK.
  destruct (compare_services_total reported) as [H|H].
  - split.
    + intros [d Hd]. congruence.
    + apply HOK in H as [? ?]. intros [?|?]; done.
  - split; [|done]. intros _.
    destruct (decide (movable_reported reported ≡ₚ SDP.movable_of reported)); [|by left].
    destruct (decide (fixed_reported reported = fixed_expected reported)); [|by right].
    destruct H as [d Hd]. rewrite (proj2 HOK) in Hd; done.
Qed.

(** ** Translating the reported UUIDs *)

Lemma hex_digit_upper (c : ascii) :
  Py.is_upper_hex c = true -> exists d, Py.hex_digit c = Some d.
Proof.
  unfold Py.is_upper_hex, Py.hex_digit.
  destruct (Py.is_digit c); simpl; [eauto|].
  intros ->. eauto.
Qed.

Lemma digits_value_upper_hex (ds : string) (acc : N) :
  forallb Py.is_upper_hex (list_ascii_of_string ds) = true ->
  exists n, Py.digits_value Py.hex_digit 16 acc ds = Some n.
Proof.
  revert acc. induction ds as [|c ds IH]; intros acc; simpl; [eauto|].
  rewrite andb_true_iff. intros [Hc Hds].
  destruct (hex_digit_upper c Hc) as [d ->]. by apply IH.
Qed.

Lemma int_16_uuid_literal (s : string) :
  SDP.uuid_literal s = true -> exists n, Py.int_16 s = Return n.
Proof.
  destruct s as [|a [|b [|c ds]]]; try done.
  - destruct a as [[] [] [] [] [] [] [] []]; done.
  - destruct a as [[] [] [] [] [] [] [] []]; try done.
    destruct b as [[] [] [] [] [] [] [] []]; done.
  - destruct a as [[] [] [] [] [] [] [] []]; try done.
    destruct b as [[] [] [] [] [] [] [] []]; try done.
    intros H. change (forallb Py.is_upper_hex
      (list_ascii_of_string (String c ds)) = true) in H.
    destruct (digits_value_upper_hex (String c ds) 0 H) as [n Hn].
    exists n. unfold Py.int_16. change (Py.strip_0x _) with (String c ds).
    cbv beta iota. by rewrite Hn.
Qed.

Lemma service_name_translates (uuid name : string) :
  SDP.service_name uuid = Return name <-> translates uuid name.
Proof.
  unfold SDP.service_name, translates, default.
  destruct (Py.int_16 uuid) as [n|e]; simpl.
  - split.
    + intros [= <-]. eauto.
    + intros (m & [= <-] & ->). done.
  - split; [done|]. intros (m & ? & _). done.
Qed.

Lemma map_service_name_Forall2 (uuid_list reported : list string) :
  Py.map_raising SDP.service_name uuid_list = Return reported <->
  Forall2 translates uuid_list reported.
Proof.
  revert reported. induction uuid_list as [|u l IH]; intros reported; simpl.
  - split.
    + intros [= <-]. constructor.
    + intros H. by inversion H.
  - pose proof (service_name_translates u) as Hu.
    destruct (SDP.service_name u) as [name|e]; simpl.
    + destruct (Py.map_raising SDP.service_name l) as [names|e]; simpl.
      * split.
        -- intros [= <-]. constructor; [by apply Hu | by apply IH].
        -- intros H. inversion H as [|? y ? ys Hy Hys]; subst.
           apply Hu in Hy as [= ->]. apply IH in Hys as [= ->]. done.
      * split; [done|].
        intros H. inversion H as [|? y ? ys Hy Hys]; subst.
        by apply IH in Hys.
    + split; [done|].
      intros H. inversion H as [|? y ? ys Hy Hys]; subst. by apply Hu in Hy.
Qed.

Lemma map_service_name_literals (uuid_list : list string) :
  forallb SDP.uuid_literal uuid_list = true ->
  exists reported, Py.map_raising SDP.service_name uuid_list = Return reported.
Proof.
  induction uuid_list as [|u l IH]; simpl; [eauto|].
  rewrite andb_true_iff. intros [Hu Hl].
  destruct (int_16_uuid_literal u Hu) as [n Hn].
  destruct (IH Hl) as [names ->].
  unfold SDP.service_name at 1. rewrite Hn. simpl. eauto.
Qed.

(** C3: on a prompt, the handler translates every UUID through the
    table (an unknown one stays as its literal) and then raises an
    assertion error exactly when the movable services reported differ
    as a multiset from the movable services expected, or the rest of the
    reported list differs as a sequence from the rest of the expected
    list, absent optional services being removed from both expected
    lists; otherwise it returns "OK". *)
Theorem verify_browsable_services_fails_iff (uuids : string) :
  SDP.prompt_uuids uuids = true ->
  exists reported,
    Forall2 translates (Py.split ", " uuids) reported /\
    (is_assertion_error (SDP.TSC_SDP_mmi_verify_browsable_services uuids) <->
       ~ movable_reported reported ≡ₚ SDP.movable_of reported \/
       fixed_reported reported <> fixed_expected reported) /\
    (~ (~ movable_reported reported ≡ₚ SDP.movable_of reported \/
        fixed_reported reported <> fixed_expected reported) ->
     SDP.TSC_SDP_mmi_verify_browsable_services uuids = Return "OK").
Proof.
  unfold SDP.prompt_uuids. rewrite andb_true_iff. intros [_ Hlit].
  destruct (map_service_name_literals _ Hlit) as [reported Hrep].
  exists reported. split; [by apply map_service_name_Forall2|].
  unfold SDP.TSC_SDP_mmi_verify_browsable_services. rewrite Hrep. simpl.
  split; [apply compare_services_fails|].
  intros Hn. destruct (compare_services_total reported) as [H|H]; [done|].
  by apply compare_services_fails in H.
Qed.

Lemma verify_browsable_services_fails_iff_witness :
  exists reported,
    Forall2 translates (Py.split ", " "0x1800, 0x110A, 0xABCD") reported /\
    (is_assertion_error
       (SDP.TSC_SDP_mmi_verify_browsable_services "0x1800, 0x110A, 0xABCD") <->
       ~ movable_reported reported ≡ₚ SDP.movable_of reported \/
       fixed_reported reported <> fixed_expected reported) /\
    (~ (~ movable_reported reported ≡ₚ SDP.movable_of reported \/
        fixed_reported reported <> fixed_expected reported) ->
     SDP.TSC_SDP_mmi_verify_browsable_services "0x1800, 0x110A, 0xABCD"
     = Return "OK").
Proof.
  apply (verify_browsable_services_fails_iff "0x1800, 0x110A, 0xABCD").
  vm_compute. reflexivity.
Defined.

Example verify_browsable_services_unknown_uuid :
  SDP.TSC_SDP_mmi_verify_browsable_services "0x1800, 0x110A, 0xABCD" =
  Raise (AssertionError (CountsNotEqual [] ["Message Access Server"])).
Proof. vm_compute. reflexivity. Qed.

Lemma verify_browsable_services_translated (uuids : string) (reported : list string) :
  Py.map_raising SDP.service_name (Py.split ", " uuids) = Return reported ->
  SDP.TSC_SDP_mmi_verify_browsable_services uuids = SDP.compare_services reported.
Proof.
  intros H. unfold SDP.TSC_SDP_mmi_verify_browsable_services. by rewrite H.
Qed.

(** ** A movable service at any position *)

Lemma compare_services_TMAS_anywhere (i : nat) :
  SDP.compare_services (insert_at i "TMAS" expected_without_TMAS) = Return "OK".
Proof.
  do 17 (destruct i as [|i]; [vm_compute; reflexivity|]).
  vm_compute. reflexivity.
Qed.

(** C1: a reported UUID list that translates to the expected service
    sequence with TMAS put at any position passes the check: the
    handler returns "OK" wherever TMAS stands. *)
Theorem verify_browsable_services_TMAS_any_position (uuids : string) (i : nat) :
  Py.map_raising SDP.service_name (Py.split ", " uuids)
    = Return (insert_at i "TMAS" expected_without_TMAS) ->
  SDP.TSC_SDP_mmi_verify_browsable_services uuids = Return "OK".
Proof.
  intros H. rewrite (verify_browsable_services_translated _ _ H).
  apply compare_services_TMAS_anywhere.
Qed.

Lemma verify_browsable_services_TMAS_any_position_witness :
  Py.map_raising SDP.service_name (Py.split ", "
    "0x1801, 0x1800, 0x110A, 0x1855, 0x110C, 0x110E, 0x110F, 0x1112, 0x1203, 0x111F, 0x1203, 0x1132, 0x1116, 0x1115, 0x112F, 0x1105, 0xC26CF57233694CF2B5CCD2CD130F5B2C")
    = Return (insert_at 3 "TMAS" expected_without_TMAS) /\
  SDP.TSC_SDP_mmi_verify_browsable_services
    "0x1801, 0x1800, 0x110A, 0x1855, 0x110C, 0x110E, 0x110F, 0x1112, 0x1203, 0x111F, 0x1203, 0x1132, 0x1116, 0x1115, 0x112F, 0x1105, 0xC26CF57233694CF2B5CCD2CD130F5B2C"
    = Return "OK".
Proof.
  split; [vm_compute; reflexivity|].
  apply (verify_browsable_services_TMAS_any_position _ 3).
  vm_compute; reflexivity.
Defined.

(** ** Optional services *)

Lemma without_absent (s : string) (l : list string) :
  s ∉ l -> without s l = l.
Proof.
  intros Hs. unfold without. induction l as [|a l IH]; simpl; [done|].
  apply not_elem_of_cons in Hs as [Hne Hs].
  rewrite bool_decide_eq_true_2 by done. by rewrite IH.
Qed.

Lemma contains_without (s : string) (l : list string) (x : string) :
  Py.contains (without s l) x = Py.contains l x && bool_decide (x <> s).
Proof. apply contains_filter. Qed.

Lemma filterfalse_optional_without (s : string) (reported l : list string) :
  s ∈ SDP.optional_services -> s ∈ reported ->
  Py.filterfalse (SDP.optional_not_present (without s reported)) l
  = without s (Py.filterfalse (SDP.optional_not_present reported) l).
Proof.
  intros Hopt Hrep. unfold Py.filterfalse, without.
  rewrite filter_filter_andb. apply filter_ext. intros x.
  unfold SDP.optional_not_present. rewrite contains_filter.
  destruct (decide (x = s)) as [->|Hne].
  - rewrite (bool_decide_eq_false_2 (s <> s)) by (intros H; by apply H).
    apply contains_true in Hopt as ->. apply contains_true in Hrep as ->. done.
  - rewrite (bool_decide_eq_true_2 (x <> s)) by done. by rewrite !andb_true_r.
Qed.

Lemma filterfalse_movable_without (s : string) (movable l : list string) :
  Py.filterfalse (Py.contains (without s movable)) (without s l)
  = without s (Py.filterfalse (Py.contains movable) l).
Proof.
  unfold Py.filterfalse, without. rewrite !filter_filter_andb.
  apply filter_ext. intros x. rewrite contains_filter.
  case_bool_decide; simpl; [by rewrite !andb_true_r|by rewrite andb_false_r].
Qed.

Lemma filter_movable_without (s : string) (movable l : list string) :
  List.filter (Py.contains (without s movable)) (without s l)
  = without s (List.filter (Py.contains movable) l).
Proof.
  unfold without. rewrite !filter_filter_andb.
  apply filter_ext. intros x. rewrite contains_filter.
  case_bool_decide; simpl; [by rewrite !andb_true_r|by rewrite andb_false_r].
Qed.

Lemma compare_services_without (s : string) (reported : list string) :
  s ∈ SDP.optional_services ->
  SDP.compare_services reported = Return "OK" ->
  SDP.compare_services (without s reported) = Return "OK".
Proof.
  intros Hopt HOK.
  destruct (decide (s ∈ reported)) as [Hin|Hout];
    [|by rewrite without_absent].
  apply compare_services_OK in HOK as [Hmov Hfix].
  apply compare_services_OK.
  unfold movable_reported, fixed_reported, fixed_expected,
    SDP.movable_of, SDP.expected_of in *.
  rewrite !filterfalse_optional_without by done.
  rewrite filter_movable_without, !filterfalse_movable_without.
  split; [by apply filter_bool_Permutation | by rewrite Hfix].
Qed.

Lemma optional_not_present_removed (s : string) (reported l : list string) :
  s ∈ SDP.optional_services -> s ∉ reported ->
  s ∉ Py.filterfalse (SDP.optional_not_present reported) l.
Proof.
  intros Hopt Hrep. unfold Py.filterfalse.
  rewrite list_elem_of_In, filter_In. intros [_ H].
  unfold SDP.optional_not_present in H.
  apply contains_true in Hopt. rewrite Hopt in H.
  unfold Py.contains in H. rewrite (bool_decide_eq_false_2 _ Hrep) in H. done.
Qed.

(** C2: an optional service that the reported list does not have is
    taken out of the expected list and of the movable list before
    anything is compared, and taking an optional service out of a
    reported list that passes leaves a list that passes.  When an
    optional service is reported and the check passes, a movable one is
    among the movable services the reported ones are a rearrangement
    of, and any other one stands in the reported fixed-order sequence,
    which is the expected one. *)
Theorem optional_service_absent_or_in_bucket (reported : list string) (s : string) :
  s ∈ SDP.optional_services ->
  (s ∉ reported ->
     (s ∉ SDP.expected_of reported) /\ (s ∉ SDP.movable_of reported)) /\
  (SDP.compare_services reported = Return "OK" ->
     SDP.compare_services (without s reported) = Return "OK") /\
  (s ∈ reported -> SDP.compare_services reported = Return "OK" ->
     if Py.contains SDP.movable_services s
     then (s ∈ SDP.movable_of reported /\
           movable_reported reported ≡ₚ SDP.movable_of reported)
     else (s ∈ fixed_reported reported /\
           fixed_reported reported = fixed_expected reported)).
Proof.
  intros Hopt. split; [|split].
  - intros Hout. split; by apply optional_not_present_removed.
  - by apply compare_services_without.
  - intros Hin HOK. apply compare_services_OK in HOK as [Hmov Hfix].
    destruct (Py.contains SDP.movable_services s) eqn:Hm.
    + split; [|done]. unfold SDP.movable_of, Py.filterfalse.
      rewrite list_elem_of_In, filter_In, <- list_elem_of_In.
      split; [by apply contains_true|].
      unfold SDP.optional_not_present.
      apply contains_true in Hin as ->. by rewrite andb_false_r.
    + split; [|done]. unfold fixed_reported, Py.filterfalse.
      rewrite list_elem_of_In, filter_In, <- list_elem_of_In.
      split; [done|].
      unfold SDP.movable_of, Py.filterfalse. rewrite contains_filter, Hm. done.
Qed.

Lemma optional_service_absent_or_in_bucket_witness :
  let reported := [
    "Generic Access"; "AudioSource"; "A/V_RemoteControlTarget";
    "A/V_RemoteControl"; "Headset - Audio Gateway"; "GenericAudio";
    "HandsfreeAudioGateway"; "GenericAudio"; "TMAS"; "Message Access Server";
    "NAP"; "PANU"; "Phonebook Access - PSE"; "OBEXObjectPush" ] in
  SDP.compare_services reported = Return "OK" /\
  SDP.compare_services (without "TMAS" reported) = Return "OK" /\
  "TMAS" ∈ SDP.movable_of reported /\
  "Generic Attribute service" ∉ SDP.expected_of reported.
Proof.
  intros reported.
  assert (Ht : "TMAS" ∈ SDP.optional_services)
    by (apply contains_true; vm_compute; reflexivity).
  assert (Hg : "Generic Attribute service" ∈ SDP.optional_services)
    by (apply contains_true; vm_compute; reflexivity).
  assert (HOK : SDP.compare_services reported = Return "OK")
    by (vm_compute; reflexivity).
  assert (Hin : "TMAS" ∈ reported)
    by (apply contains_true; vm_compute; reflexivity).
  assert (Hout : "Generic Attribute service" ∉ reported)
    by (rewrite <- contains_true; vm_compute; discriminate).
  split; [exact HOK|].
  split; [exact (proj1 (proj2 (optional_service_absent_or_in_bucket reported "TMAS" Ht)) HOK)|].
  split.
  - exact (proj1 (proj2 (proj2 (optional_service_absent_or_in_bucket reported "TMAS" Ht)) Hin HOK)).
  - exact (proj1 (proj1 (optional_service_absent_or_in_bucket reported _ Hg) Hout)).
Defined.

(** ** The pairing responder *)

Lemma answers_app (t1 t2 : list SM.io) :
  SM.answers (t1 ++ t2) = SM.answers t1 ++ SM.answers t2.
Proof. apply omap_app. Qed.

Lemma waits_app (t1 t2 : list SM.io) :
  SM.waits (t1 ++ t2) = SM.waits t1 + SM.waits t2.
Proof. unfold SM.waits. by rewrite List.filter_app, length_app. Qed.

Lemma confirmations_app (t1 t2 : list SM.io) :
  SM.confirmations (t1 ++ t2) = SM.confirmations t1 + SM.confirmations t2.
Proof. unfold SM.confirmations. by rewrite List.filter_app, length_app. Qed.

Lemma passkey_answers_app (t1 t2 : list SM.io) :
  SM.passkey_answers (t1 ++ t2) = SM.passkey_answers t1 ++ SM.passkey_answers t2.
Proof. unfold SM.passkey_answers. by rewrite answers_app, List.filter_app. Qed.



(** Whatever the fields of an event read as: an answer with
    [confirm=True] is sent exactly when [just_works] or a number other
    than 0 is read, and the queue is waited on exactly when
    [passkey_entry_request] is read. *)
Lemma answer_event_effects (e : SM.PairingEvent) (st : SM.SMProxy) :
  SM.confirmations (SM.trace (SM.answer_event e st).1) =
    SM.confirmations (SM.trace st) +
    (if SM.just_works e || Py.truthy (SM.numeric_comparison e) then 1 else 0) /\
  SM.waits (SM.trace (SM.answer_event e st).1) =
    SM.waits (SM.trace st) + (if SM.passkey_entry_request e then 1 else 0).
Proof.
  unfold SM.answer_event, pbind, try_except, SM.Queue_get, lift,
    SM.pairing_events_send, SM.debug, SM.log, modify, ret.
  destruct (SM.just_works e || Py.truthy (SM.numeric_comparison e));
    destruct (SM.passkey_entry_request e); simpl;
    try (destruct (SM.passkey_queue st) as [|item rest]; simpl;
         [|destruct (Py.int_10 item) as [n|[]]; simpl]);
    rewrite ?confirmations_app, ?waits_app;
    unfold SM.confirmations, SM.waits; simpl; split; lia.
Qed.


(** The same event with nothing on the queue by the end of the wait. *)
Lemma answer_event_timeout (e : SM.PairingEvent) (t : list SM.io) :
  SM.passkey_entry_request e = true ->
  SM.answer_event e {| SM.passkey_queue := []; SM.trace := t |} =
  ({| SM.passkey_queue := [];
      SM.trace := t ++ SM.confirmation e ++
        [SM.Got 15 None; SM.Debug "No passkey provided within 15 seconds"] |},
   Return tt).
Proof.
  intros Hper.
  unfold SM.answer_event, SM.confirmation, pbind, try_except, SM.Queue_get, lift,
    SM.pairing_events_send, SM.debug, SM.log, modify, ret.
  rewrite Hper.
  destruct (SM.just_works e || Py.truthy (SM.numeric_comparison e)); simpl;
    by rewrite <- ?app_assoc.
Qed.

(** C4, where the code leaves the claim: the event of any variant, a
    just-works or numeric-comparison one too, is answered with
    [confirm=True] and then the passkey queue is waited on; the oldest
    value of the queue, if there is one, is taken off it. *)
Theorem every_event_waits_on_queue (v : SM.variant) (st : SM.SMProxy) :
  let r := SM.answer_event (SM.event_of v) st in
  (exists after,
     SM.trace r.1 = SM.trace st ++
       [SM.Sent {| SM.event := SM.event_of v; SM.answer_of := SM.confirm true |};
        SM.Got 15 (head (SM.passkey_queue st))] ++ after) /\
  SM.passkey_queue r.1 = tail (SM.passkey_queue st) /\
  SM.waits (SM.trace r.1) = S (SM.waits (SM.trace st)).
Proof.
  intros r. subst r. destruct st as [q t].
  assert (Hper : SM.passkey_entry_request (SM.event_of v) = true)
    by by destruct v.
  assert (Hc : SM.confirmation (SM.event_of v) =
    [SM.Sent {| SM.event := SM.event_of v; SM.answer_of := SM.confirm true |}])
    by by destruct v.
  destruct q as [|item rest].
  - rewrite (answer_event_timeout _ _ Hper), Hc. cbn [fst SM.trace SM.passkey_queue].
    split; [by eexists|]. split; [done|].
    rewrite waits_app. unfold SM.waits at 2. simpl. lia.
  - pose proof (answer_event_effects (SM.event_of v)
                  {| SM.passkey_queue := item :: rest; SM.trace := t |}) as [_ Hw].
    rewrite Hper in Hw.
    split; [|split; [|cbn [SM.trace] in *; lia]].
    + unfold SM.answer_event, pbind, try_except, SM.Queue_get, lift,
        SM.pairing_events_send, SM.debug, SM.log, modify, ret.
      rewrite Hper.
      replace (SM.just_works (SM.event_of v)
               || Py.truthy (SM.numeric_comparison (SM.event_of v))) with true
        by by destruct v.
      simpl. destruct (Py.int_10 item) as [n|[]]; simpl;
        rewrite <- ?app_assoc; by eexists.
    + unfold SM.answer_event, pbind, try_except, SM.Queue_get, lift,
        SM.pairing_events_send, SM.debug, SM.log, modify, ret.
      rewrite Hper.
      destruct (SM.just_works (SM.event_of v) || _); simpl;
        by destruct (Py.int_10 item) as [n|[]].
Qed.

(** The failing input of C4 run: a just-works event while 111111 is on
    the queue takes it off and sends it as a second answer. *)
Example just_works_takes_passkey :
  SM.answer_event (SM.event_of SM.JustWorks)
    (SM.MMI_DISPLAY_PASSKEY_CODE "111111"
       {| SM.passkey_queue := []; SM.trace := [] |}).1 =
  ({| SM.passkey_queue := [];
      SM.trace :=
        [SM.Sent {| SM.event := SM.event_of SM.JustWorks;
                    SM.answer_of := SM.confirm true |};
         SM.Got 15 (Some "111111");
         SM.Sent {| SM.event := SM.event_of SM.JustWorks;
                    SM.answer_of := SM.passkey 111111 |}] |},
   Return tt).
Proof. vm_compute. reflexivity. Qed.




(** A passkey that is not a number (the prompt pattern admits the empty
    one) is taken off the queue, and the [ValueError] of [int] is not
    an [Empty]: it leaves [task], which reads no further event. *)
Example empty_passkey_ends_task :
  SM.task [SM.event_of SM.PasskeyEntryRequest; SM.event_of SM.JustWorks]
    (SM.MMI_DISPLAY_PASSKEY_CODE "" {| SM.passkey_queue := []; SM.trace := [] |}).1
  = ({| SM.passkey_queue := [];
        SM.trace :=
          [SM.Sent {| SM.event := SM.event_of SM.PasskeyEntryRequest;
                      SM.answer_of := SM.confirm true |};
           SM.Got 15 (Some "")] |},
     Raise (ValueError "")).
Proof. reflexivity. Qed.

(** C6, where the code leaves the claim: with no passkey within the 15
    seconds of the one wait, a passkey-entry request has all the same
    been answered, with [confirm=True], before the wait.  The rest is
    as claimed: no passkey is sent, the timeout is printed and nothing
    is raised, and the responder goes on with the next event. *)
Theorem passkey_timeout_absorbed (st : SM.SMProxy) (next_events : list SM.PairingEvent) :
  SM.passkey_queue st = [] ->
  exists st',
    SM.answer_event (SM.event_of SM.PasskeyEntryRequest) st = (st', Return tt) /\
    SM.trace st' = SM.trace st ++
      [SM.Sent {| SM.event := SM.event_of SM.PasskeyEntryRequest;
                  SM.answer_of := SM.confirm true |};
       SM.Got 15 None; SM.Debug "No passkey provided within 15 seconds"] /\
    SM.answers (SM.trace st') = SM.answers (SM.trace st) ++
      [{| SM.event := SM.event_of SM.PasskeyEntryRequest;
          SM.answer_of := SM.confirm true |}] /\
    SM.passkey_answers (SM.trace st') = SM.passkey_answers (SM.trace st) /\
    SM.waits (SM.trace st') = S (SM.waits (SM.trace st)) /\
    SM.passkey_queue st' = [] /\
    SM.task (SM.event_of SM.PasskeyEntryRequest :: next_events) st
      = SM.task next_events st'.
Proof.
  intros Hq. destruct st as [q t]. simpl in Hq. subst q.
  pose proof (answer_event_timeout (SM.event_of SM.PasskeyEntryRequest) t eq_refl)
    as Hstep.
  change (SM.confirmation (SM.event_of SM.PasskeyEntryRequest)) with
    [SM.Sent {| SM.event := SM.event_of SM.PasskeyEntryRequest;
                SM.answer_of := SM.confirm true |}] in Hstep.
  eexists. split; [exact Hstep|].
  split; [done|]. split; [|split; [|split; [|split; [done|]]]].
  - cbn [SM.trace]. rewrite answers_app. done.
  - cbn [SM.trace]. rewrite passkey_answers_app. simpl. by rewrite app_nil_r.
  - cbn [SM.trace]. rewrite waits_app. unfold SM.waits at 2. simpl. lia.
  - cbn [SM.task]. unfold pbind at 1. by rewrite Hstep.
Qed.

Lemma passkey_timeout_absorbed_witness :
  exists st',
    SM.answer_event (SM.event_of SM.PasskeyEntryRequest)
      {| SM.passkey_queue := []; SM.trace := [] |} = (st', Return tt) /\
    SM.trace st' = [] ++
      [SM.Sent {| SM.event := SM.event_of SM.PasskeyEntryRequest;
                  SM.answer_of := SM.confirm true |};
       SM.Got 15 None; SM.Debug "No passkey provided within 15 seconds"] /\
    SM.answers (SM.trace st') = SM.answers [] ++
      [{| SM.event := SM.event_of SM.PasskeyEntryRequest;
          SM.answer_of := SM.confirm true |}] /\
    SM.passkey_answers (SM.trace st') = SM.passkey_answers [] /\
    SM.waits (SM.trace st') = S (SM.waits []) /\
    SM.passkey_queue st' = [] /\
    SM.task [SM.event_of SM.PasskeyEntryRequest; SM.event_of SM.JustWorks]
      {| SM.passkey_queue := []; SM.trace := [] |}
      = SM.task [SM.event_of SM.JustWorks] st'.
Proof.
  apply (passkey_timeout_absorbed {| SM.passkey_queue := []; SM.trace := [] |}
           [SM.event_of SM.JustWorks]).
  reflexivity.
Defined.

(** ** L2CAP: the data the send handlers transmit and the confirmation *)

Lemma string_eqb_false (a b : string) : a <> b -> (a =? b) = false.
Proof. apply String.eqb_neq. Qed.

Lemma send_le_data_packet_large_calls l2cap_Send (st : L2CAP.L2CAPProxy) (ch : L2CAP.Channel) :
  L2CAP.channel st = Some ch ->
  L2CAP.calls (L2CAP.MMI_UPPER_TESTER_SEND_LE_DATA_PACKET_LARGE l2cap_Send st).1
  = L2CAP.calls st ++ [L2CAP.Send_call ch (Py.encode_utf8 L2CAP.LE_DATA_PACKET_LARGE)].
Proof.
  intros Hch. unfold L2CAP.MMI_UPPER_TESTER_SEND_LE_DATA_PACKET_LARGE, pbind, gets.
  rewrite Hch. unfold L2CAP.Send, pbind, L2CAP.called, modify, lift. simpl.
  by destruct (l2cap_Send _ _).
Qed.

Lemma send_le_data_packet1_calls l2cap_Send (st : L2CAP.L2CAPProxy) (ch : L2CAP.Channel) :
  L2CAP.channel st = Some ch ->
  L2CAP.calls (L2CAP.MMI_UPPER_TESTER_SEND_LE_DATA_PACKET1 l2cap_Send st).1
  = L2CAP.calls st ++ [L2CAP.Send_call ch (Py.encode_utf8 L2CAP.LE_DATA_PACKET1)].
Proof.
  intros Hch. unfold L2CAP.MMI_UPPER_TESTER_SEND_LE_DATA_PACKET1, pbind, gets.
  rewrite Hch. unfold L2CAP.Send, pbind, L2CAP.called, modify, lift. simpl.
  by destruct (l2cap_Send _ _).
Qed.

(** C7: the confirmation returns "OK" exactly when the reported text is
    the upper-case hexadecimal text of the payload of the test, which is
    the one its send handler puts on the channel; on any other text it
    raises an exception whose message gives the reported and the
    expected text. *)
Theorem confirm_le_data_iff (sent_data test : string) (st : L2CAP.L2CAPProxy) :
  let expected := Py.upper (Py.hex (payload_of test)) in
  ((L2CAP.MMI_UPPER_TESTER_CONFIRM_LE_DATA sent_data test st).2 = Return "OK"
     <-> sent_data = expected) /\
  (sent_data <> expected ->
     (L2CAP.MMI_UPPER_TESTER_CONFIRM_LE_DATA sent_data test st).2 =
     Raise (Exception ("data not match, sent_data:" +:+ sent_data +:+ " and "
                       +:+ expected))) /\
  (forall l2cap_Send ch, L2CAP.channel st = Some ch ->
     L2CAP.calls (L2CAP.MMI_UPPER_TESTER_SEND_LE_DATA_PACKET1 l2cap_Send st).1
       = L2CAP.calls st ++ [L2CAP.Send_call ch (payload_of "L2CAP/COS/CFC/BV-02-C")] /\
     (test <> "L2CAP/COS/CFC/BV-02-C" ->
      L2CAP.calls (L2CAP.MMI_UPPER_TESTER_SEND_LE_DATA_PACKET_LARGE l2cap_Send st).1
       = L2CAP.calls st ++ [L2CAP.Send_call ch (payload_of test)])).
Proof.
  intros expected.
  assert (Hexp : expected =
    if test =? "L2CAP/COS/CFC/BV-02-C"
    then Py.upper (Py.hex (Py.encode_utf8 L2CAP.LE_DATA_PACKET1))
    else Py.upper (Py.hex (Py.encode_utf8 L2CAP.LE_DATA_PACKET_LARGE))).
  { unfold expected, payload_of. by destruct (test =? _). }
  unfold L2CAP.MMI_UPPER_TESTER_CONFIRM_LE_DATA. rewrite <- Hexp.
  split; [|split].
  - destruct (sent_data =? expected) eqn:Heq; simpl.
    + apply String.eqb_eq in Heq. done.
    + apply String.eqb_neq in Heq. done.
  - intros Hne. rewrite (string_eqb_false _ _ Hne). done.
  - intros l2cap_Send ch Hch. split.
    + by apply send_le_data_packet1_calls.
    + intros Hne. unfold payload_of. rewrite (string_eqb_false _ _ Hne).
      by apply send_le_data_packet_large_calls.
Qed.

Example confirm_le_data_large :
  Py.upper (Py.hex (payload_of "L2CAP/LE/CFC/BV-03-C"))
  = "646174613A204C455F444154415F5041434B45545F4C41524745".
Proof. vm_compute. reflexivity. Qed.

(** ** L2CAP: the connection request *)

(** C8: when the call to Connect fails, a test of
    [tests_target_to_fail] gets 'OK' recorded in the status map and the
    handler returns "OK"; for any other test the exception leaves the
    handler and the status map is as before. *)
Theorem connection_request_failure
    (l2cap_Connect : L2CAP.Connection -> N -> result L2CAP.ConnectResponse)
    (test : string) (pts_addr : list Byte.byte) (st : L2CAP.L2CAPProxy)
    (c : L2CAP.Connection) (rest : list L2CAP.Connection) (e : exn) :
  L2CAP.connection st = None ->
  L2CAP.advertise st = Some (c :: rest) ->
  connect_fails l2cap_Connect c (L2CAP.spsm_of test) e ->
  (test ∈ L2CAP.tests_target_to_fail ->
     L2CAP.MMI_IUT_SEND_LE_CREDIT_BASED_CONNECTION_REQUEST l2cap_Connect test pts_addr st =
     ({| L2CAP.test_status_map := <[test := "OK"]> (L2CAP.test_status_map st);
         L2CAP.connection := Some c;
         L2CAP.channel := L2CAP.channel st;
         L2CAP.advertise := Some rest;
         L2CAP.calls := L2CAP.calls st ++
           [L2CAP.next_advertise; L2CAP.Connect_call c (L2CAP.spsm_of test)];
         L2CAP.stderr := L2CAP.stderr st ++
           [L2CAP.Printed (test +:+ " target to fail")] |},
      Return "OK")) /\
  (test ∉ L2CAP.tests_target_to_fail ->
     L2CAP.MMI_IUT_SEND_LE_CREDIT_BASED_CONNECTION_REQUEST l2cap_Connect test pts_addr st =
     ({| L2CAP.test_status_map := L2CAP.test_status_map st;
         L2CAP.connection := Some c;
         L2CAP.channel := L2CAP.channel st;
         L2CAP.advertise := Some rest;
         L2CAP.calls := L2CAP.calls st ++
           [L2CAP.next_advertise; L2CAP.Connect_call c (L2CAP.spsm_of test)];
         L2CAP.stderr := L2CAP.stderr st ++
           [L2CAP.PrintedExn (test +:+ " CreateLECreditBasedChannel failed") e] |},
      Raise e)).
Proof.
  intros Hconn Hadv Hfail.
  unfold L2CAP.MMI_IUT_SEND_LE_CREDIT_BASED_CONNECTION_REQUEST.
  remember (L2CAP.spsm_of test) as psm eqn:Hpsm. clear Hpsm.
  split; intros Hin;
    unfold pbind at 1; unfold gets; rewrite Hconn;
    rewrite bool_decide_eq_false_2 by (intros [? ?]; done);
    rewrite andb_false_l;
    rewrite bool_decide_eq_true_2 by done;
    unfold L2CAP.assert_, pbind, ret, L2CAP.next_advertise_connection;
    rewrite Hadv;
    unfold L2CAP.set_connection, modify, try_except, L2CAP.Connect,
      pbind, L2CAP.called, modify, lift; simpl.
  - apply contains_true in Hin. rewrite Hin.
    destruct Hfail as [H|(error & H & ->)]; rewrite H; simpl;
      by rewrite <- app_assoc.
  - unfold Py.contains. rewrite (bool_decide_eq_false_2 _ Hin).
    destruct Hfail as [H|(error & H & ->)]; rewrite H; simpl;
      by rewrite <- app_assoc.
Qed.

Lemma connection_request_failure_witness :
  L2CAP.MMI_IUT_SEND_LE_CREDIT_BASED_CONNECTION_REQUEST
    (fun _ _ => Return (L2CAP.has_error "LE_PSM not supported"))
    "L2CAP/LE/CFC/BV-04-C" []
    {| L2CAP.test_status_map := ∅; L2CAP.connection := None;
       L2CAP.channel := None; L2CAP.advertise := Some ["pts"];
       L2CAP.calls := []; L2CAP.stderr := [] |} =
  ({| L2CAP.test_status_map := <["L2CAP/LE/CFC/BV-04-C" := "OK"]> ∅;
      L2CAP.connection := Some "pts";
      L2CAP.channel := None;
      L2CAP.advertise := Some [];
      L2CAP.calls :=
        [] ++ [L2CAP.next_advertise;
               L2CAP.Connect_call "pts" (L2CAP.spsm_of "L2CAP/LE/CFC/BV-04-C")];
      L2CAP.stderr :=
        [] ++ [L2CAP.Printed ("L2CAP/LE/CFC/BV-04-C" +:+ " target to fail")] |},
   Return "OK").
Proof.
  apply (proj1 (connection_request_failure
    (fun _ _ => Return (L2CAP.has_error "LE_PSM not supported"))
    "L2CAP/LE/CFC/BV-04-C" []
    {| L2CAP.test_status_map := ∅; L2CAP.connection := None;
       L2CAP.channel := None; L2CAP.advertise := Some ["pts"];
       L2CAP.calls := []; L2CAP.stderr := [] |}
    "pts" [] (Exception "LE_PSM not supported")
    eq_refl eq_refl
    (or_intror (ex_intro _ "LE_PSM not supported" (conj eq_refl eq_refl))))).
  apply contains_true. vm_compute. reflexivity.
Defined.

(** C10: called with the connection already there, the handler returns
    "OK" at once for the test L2CAP/LE/CFC/BV-02-C and fails the
    assertion on the connection for any other test; either way the
    proxy is as before: no remote call, the same connection, channel
    and status map. *)
Theorem connection_request_when_connected
    (l2cap_Connect : L2CAP.Connection -> N -> result L2CAP.ConnectResponse)
    (test : string) (pts_addr : list Byte.byte) (st : L2CAP.L2CAPProxy)
    (c : L2CAP.Connection) :
  L2CAP.connection st = Some c ->
  L2CAP.MMI_IUT_SEND_LE_CREDIT_BASED_CONNECTION_REQUEST l2cap_Connect test pts_addr st =
  (st, if test =? "L2CAP/LE/CFC/BV-02-C"
       then Return "OK"
       else Raise (AssertionError
              (AssertMsg "the connection should be None for the first call"))).
Proof.
  intros Hconn.
  unfold L2CAP.MMI_IUT_SEND_LE_CREDIT_BASED_CONNECTION_REQUEST.
  unfold pbind at 1. unfold gets. rewrite Hconn.
  rewrite bool_decide_eq_true_2 by eauto. rewrite andb_true_l.
  destruct (test =? "L2CAP/LE/CFC/BV-02-C"); [done|].
  rewrite bool_decide_eq_false_2 by done. done.
Qed.

Lemma connection_request_when_connected_witness :
  L2CAP.MMI_IUT_SEND_LE_CREDIT_BASED_CONNECTION_REQUEST
    (fun _ _ => Return (L2CAP.has_channel "cid"))
    "L2CAP/LE/CFC/BV-04-C" []
    {| L2CAP.test_status_map := ∅; L2CAP.connection := Some "pts";
       L2CAP.channel := None; L2CAP.advertise := Some ["pts"];
       L2CAP.calls := []; L2CAP.stderr := [] |} =
  ({| L2CAP.test_status_map := ∅; L2CAP.connection := Some "pts";
      L2CAP.channel := None; L2CAP.advertise := Some ["pts"];
      L2CAP.calls := []; L2CAP.stderr := [] |},
   if "L2CAP/LE/CFC/BV-04-C" =? "L2CAP/LE/CFC/BV-02-C"
   then Return "OK"
   else Raise (AssertionError
          (AssertMsg "the connection should be None for the first call"))).
Proof.
  apply (connection_request_when_connected _ "L2CAP/LE/CFC/BV-04-C" [] _ "pts").
  reflexivity.
Defined.

(** ** L2CAP: the handlers that read the status map *)

Ltac status_reader :=
  cbv beta delta [
    L2CAP._mmi_135
    L2CAP.MMI_UPPER_TESTER_CONFIRM_RECEIVE_COMMAND_NOT_UNDERSTAOOD
    L2CAP.MMI_UPPER_TESTER_CONFIRM_RECEIVE_REJECT_PSM
    L2CAP.MMI_UPPER_TESTER_CONFIRM_RECEIVE_REJECT_AUTHENTICATION
    L2CAP.MMI_IUT_SEND_INSUFFICIENT_AUTHENTICATION_ON_LE
    L2CAP.MMI_UPPER_TESTER_CONFIRM_RECEIVE_REJECT_AUTHORIZATION
    L2CAP.MMI_UPPER_TESTER_CONFIRM_RECEIVE_REJECT_ENCRYPTION_KEY_SIZE
    L2CAP.MMI_UPPER_TESTER_CONFIRM_RECEIVE_REJECT_INVALID_SOURCE_CID
    L2CAP.MMI_UPPER_TESTER_CONFIRM_RECEIVE_REJECT_SOURCE_CID_ALREADY_ALLOCATED
    L2CAP.MMI_UPPER_TESTER_CONFIRM_RECEIVE_REJECT_UNACCEPTABLE_PARAMETERS
    L2CAP.MMI_UPPER_TESTER_CONFIRM_RECEIVE_REJECT_RESOURCES
    pbind L2CAP.get_status ].

(** C9: a handler that reads the status map returns "OK" exactly when
    the map holds "OK" for the test; it raises an exception when the
    map holds something else, and a key error when the map has no entry
    for the test. *)
Theorem status_reader_OK_iff (h : string -> proc L2CAP.L2CAPProxy string)
    (test : string) (st : L2CAP.L2CAPProxy) :
  h ∈ L2CAP.status_readers ->
  ((h test st).2 = Return "OK" <-> L2CAP.test_status_map st !! test = Some "OK") /\
  (forall status, L2CAP.test_status_map st !! test = Some status ->
     status <> "OK" ->
     (h test st).2 = Raise (Exception "Unexpected RECEIVE_COMMAND")) /\
  (L2CAP.test_status_map st !! test = None ->
     h test st = (st, Raise (KeyError test))).
Proof.
  intros Hh. unfold L2CAP.status_readers in Hh.
  repeat (apply elem_of_cons in Hh as [->|Hh]);
    [..|by apply elem_of_nil in Hh];
    status_reader;
    (destruct (L2CAP.test_status_map st !! test) as [status|] eqn:Hst;
     [destruct (status =? "OK") eqn:Hs;
      [apply String.eqb_eq in Hs as ->|apply String.eqb_neq in Hs]|];
     simpl; (split; [split; congruence|split; [intros ? [= <-] ?|]]; done)).
Qed.

Lemma status_reader_OK_iff_witness :
  (L2CAP.MMI_UPPER_TESTER_CONFIRM_RECEIVE_REJECT_PSM "L2CAP/LE/CFC/BV-04-C"
     {| L2CAP.test_status_map := <["L2CAP/LE/CFC/BV-04-C" := "OK"]> ∅;
        L2CAP.connection := Some "pts"; L2CAP.channel := None;
        L2CAP.advertise := Some []; L2CAP.calls := []; L2CAP.stderr := [] |}).2
  = Return "OK" /\
  L2CAP.MMI_UPPER_TESTER_CONFIRM_RECEIVE_REJECT_PSM "L2CAP/LE/CFC/BV-04-C"
     {| L2CAP.test_status_map := ∅;
        L2CAP.connection := Some "pts"; L2CAP.channel := None;
        L2CAP.advertise := Some []; L2CAP.calls := []; L2CAP.stderr := [] |}
  = ({| L2CAP.test_status_map := ∅;
        L2CAP.connection := Some "pts"; L2CAP.channel := None;
        L2CAP.advertise := Some []; L2CAP.calls := []; L2CAP.stderr := [] |},
     Raise (KeyError "L2CAP/LE/CFC/BV-04-C")).
Proof.
  assert (Hh : L2CAP.MMI_UPPER_TESTER_CONFIRM_RECEIVE_REJECT_PSM ∈ L2CAP.status_readers)
    by (apply list_elem_of_further, list_elem_of_here).
  split.
  - apply (proj2 (proj1 (status_reader_OK_iff _ "L2CAP/LE/CFC/BV-04-C" _ Hh))).
    vm_compute. reflexivity.
  - apply (proj2 (proj2 (status_reader_OK_iff _ "L2CAP/LE/CFC/BV-04-C" _ Hh))).
    vm_compute. reflexivity.
Defined.

(** * Further properties *)

(** ** The comparator: what a passing list looks like *)

Lemma contains_cons (a : string) (l : list string) (x : string) :
  Py.contains (a :: l) x = (x =? a) || Py.contains l x.
Proof.
  apply eq_true_iff_eq.
  rewrite orb_true_iff, !contains_true, elem_of_cons, String.eqb_eq. done.
Qed.

Lemma contains_Permutation (l1 l2 : list string) (x : string) :
  l1 ≡ₚ l2 -> Py.contains l1 x = Py.contains l2 x.
Proof.
  intros H. apply eq_true_iff_eq. rewrite !contains_true. by rewrite H.
Qed.

Lemma filter_split_Permutation {A} (f : A -> bool) (l : list A) :
  l ≡ₚ List.filter f l ++ Py.filterfalse f l.
Proof.
  unfold Py.filterfalse. induction l as [|a l IH]; simpl; [done|].
  destruct (f a); simpl.
  - by constructor.
  - rewrite <- Permutation_middle. by constructor.
Qed.

Lemma optional_not_present_presence (reported : list string) (s : string) :
  SDP.optional_not_present reported s =
  Py.contains SDP.optional_services s &&
  negb (presence (Py.contains reported "Generic Attribute service")
                 (Py.contains reported "A/V_RemoteControlController")
                 (Py.contains reported "Android Auto Compatibility")
                 (Py.contains reported "TMAS") s).
Proof.
  unfold SDP.optional_not_present.
  destruct (Py.contains SDP.optional_services s) eqn:H; [|done].
  apply contains_true in H. unfold SDP.optional_services in H.
  repeat (apply elem_of_cons in H as [->|H]); [..|by apply elem_of_nil in H];
    reflexivity.
Qed.

Lemma expected_of_presence (reported : list string) :
  SDP.expected_of reported =
  drop_absent (presence (Py.contains reported "Generic Attribute service")
                        (Py.contains reported "A/V_RemoteControlController")
                        (Py.contains reported "Android Auto Compatibility")
                        (Py.contains reported "TMAS")) SDP.expected_services.
Proof.
  unfold SDP.expected_of, drop_absent, Py.filterfalse.
  apply filter_ext. intros s. by rewrite optional_not_present_presence.
Qed.

Lemma movable_of_presence (reported : list string) :
  SDP.movable_of reported =
  drop_absent (presence (Py.contains reported "Generic Attribute service")
                        (Py.contains reported "A/V_RemoteControlController")
                        (Py.contains reported "Android Auto Compatibility")
                        (Py.contains reported "TMAS")) SDP.movable_services.
Proof.
  unfold SDP.movable_of, drop_absent, Py.filterfalse.
  apply filter_ext. intros s. by rewrite optional_not_present_presence.
Qed.

(** The movable services that remain are, in the expected list that
    remains, exactly once each and in the order of the movable list. *)
Lemma movable_of_expected (reported : list string) :
  List.filter (Py.contains (SDP.movable_of reported)) (SDP.expected_of reported)
  = SDP.movable_of reported.
Proof.
  rewrite expected_of_presence, movable_of_presence.
  destruct (Py.contains reported "Generic Attribute service"),
    (Py.contains reported "A/V_RemoteControlController"),
    (Py.contains reported "Android Auto Compatibility"),
    (Py.contains reported "TMAS"); vm_compute; reflexivity.
Qed.

Lemma expected_of_length (reported : list string) :
  13 <= List.length (SDP.expected_of reported) <= 17.
Proof.
  rewrite expected_of_presence.
  destruct (Py.contains reported "Generic Attribute service"),
    (Py.contains reported "A/V_RemoteControlController"),
    (Py.contains reported "Android Auto Compatibility"),
    (Py.contains reported "TMAS"); vm_compute; split; repeat constructor.
Qed.

Lemma compare_services_OK_Permutation (reported : list string) :
  SDP.compare_services reported = Return "OK" ->
  reported ≡ₚ SDP.expected_of reported.
Proof.
  intros [Hmov Hfix]%compare_services_OK.
  unfold movable_reported, fixed_reported, fixed_expected in *.
  etransitivity;
    [apply (filter_split_Permutation (Py.contains (SDP.movable_of reported)))|].
  symmetry. etransitivity;
    [apply (filter_split_Permutation (Py.contains (SDP.movable_of reported)))|].
  rewrite movable_of_expected, <- Hfix.
  apply Permutation_app; [by symmetry | done].
Qed.

Lemma expected_of_subseteq (reported : list string) (s : string) :
  s ∈ SDP.expected_of reported -> s ∈ SDP.expected_services.
Proof.
  unfold SDP.expected_of, Py.filterfalse.
  rewrite !list_elem_of_In, filter_In. tauto.
Qed.

Lemma expected_of_mandatory (reported : list string) (s : string) :
  s ∈ SDP.expected_services -> s ∉ SDP.optional_services ->
  s ∈ SDP.expected_of reported.
Proof.
  intros Hs Hopt. unfold SDP.expected_of, Py.filterfalse.
  rewrite list_elem_of_In, filter_In, <- list_elem_of_In. split; [done|].
  unfold SDP.optional_not_present, Py.contains at 1.
  by rewrite (bool_decide_eq_false_2 _ Hopt).
Qed.

(** X1: a reported list that passes is a rearrangement of the expected
    list without the optional services that are not reported: it has
    only expected services, every service that is not optional, each as
    often as expected (between 13 and 17 in all). *)
Theorem passing_list_is_rearranged_expected (reported : list string) :
  SDP.compare_services reported = Return "OK" ->
  reported ≡ₚ SDP.expected_of reported /\
  (forall s, s ∈ reported -> s ∈ SDP.expected_services) /\
  (forall s, s ∈ SDP.expected_services -> s ∉ SDP.optional_services ->
     s ∈ reported) /\
  13 <= List.length reported <= 17.
Proof.
  intros HOK. pose proof (compare_services_OK_Permutation _ HOK) as Hp.
  split; [done|]. split; [|split].
  - intros s Hs. rewrite Hp in Hs. by eapply expected_of_subseteq.
  - intros s Hs Hopt. rewrite Hp. by apply expected_of_mandatory.
  - rewrite Hp. apply expected_of_length.
Qed.

Lemma passing_list_is_rearranged_expected_witness :
  let reported := [
    "Generic Access"; "AudioSource"; "A/V_RemoteControlTarget";
    "A/V_RemoteControl"; "Headset - Audio Gateway"; "GenericAudio";
    "HandsfreeAudioGateway"; "GenericAudio"; "NAP"; "PANU";
    "Message Access Server"; "Phonebook Access - PSE"; "OBEXObjectPush" ] in
  reported ≡ₚ SDP.expected_of reported /\
  (forall s, s ∈ reported -> s ∈ SDP.expected_services) /\
  (forall s, s ∈ SDP.expected_services -> s ∉ SDP.optional_services ->
     s ∈ reported) /\
  13 <= List.length reported <= 17.
Proof.
  intros reported.
  apply (passing_list_is_rearranged_expected reported).
  vm_compute. reflexivity.
Defined.

(** ** The comparator: reported UUIDs that the table does not have *)

Lemma Forall2_elem_of_l {A B} (P : A -> B -> Prop) (l : list A) (k : list B) (x : A) :
  Forall2 P l k -> x ∈ l -> exists y, y ∈ k /\ P x y.
Proof.
  induction 1 as [|a b l k Hab _ IH]; intros Hx.
  - by apply elem_of_nil in Hx.
  - apply elem_of_cons in Hx as [->|Hx].
    + exists b. split; [left|done].
    + destruct (IH Hx) as (y & Hy & HP). exists y. split; [by right|done].
Qed.

Lemma expected_services_not_literals (s : string) :
  s ∈ SDP.expected_services -> SDP.uuid_literal s = false.
Proof.
  intros Hs.
  assert (H : forallb (fun s => negb (SDP.uuid_literal s)) SDP.expected_services = true)
    by (vm_compute; reflexivity).
  rewrite forallb_forall in H. apply list_elem_of_In, H in Hs.
  by apply negb_true_iff.
Qed.

(** X2: on a prompt, a reported UUID whose number is not in the table
    makes the handler raise an assertion error, whatever else is
    reported. *)
Theorem unknown_uuid_fails (uuids u : string) (n : N) :
  SDP.prompt_uuids uuids = true ->
  u ∈ Py.split ", " uuids ->
  Py.int_16 u = Return n ->
  SDP.UUID_TO_SERVICE_NAME !! n = None ->
  is_assertion_error (SDP.TSC_SDP_mmi_verify_browsable_services uuids).
Proof.
  unfold SDP.prompt_uuids. rewrite andb_true_iff. intros [_ Hlit] Hu Hn Hnone.
  destruct (map_service_name_literals _ Hlit) as [reported Hrep].
  unfold SDP.TSC_SDP_mmi_verify_browsable_services. rewrite Hrep. simpl.
  apply map_service_name_Forall2 in Hrep.
  destruct (Forall2_elem_of_l _ _ _ _ Hrep Hu) as (name & Hname & m & Hm & ->).
  rewrite Hn in Hm. injection Hm as <-. rewrite Hnone in Hname.
  destruct (compare_services_total reported) as [HOK|Hfail]; [|done].
  exfalso.
  apply compare_services_OK_Permutation in HOK.
  rewrite HOK in Hname. apply expected_of_subseteq in Hname.
  apply expected_services_not_literals in Hname.
  rewrite forallb_forall in Hlit.
  apply list_elem_of_In, Hlit in Hu. congruence.
Qed.

Lemma unknown_uuid_fails_witness :
  is_assertion_error (SDP.TSC_SDP_mmi_verify_browsable_services
    "0x1801, 0x1800, 0x110A, 0x110C, 0x110E, 0x110F, 0x1112, 0x1203, 0x111F, 0x1203, 0x1132, 0x1116, 0x1115, 0x1855, 0x112F, 0x1105, 0x1124").
Proof.
  apply (unknown_uuid_fails _ "0x1124" 0x1124%N).
  - vm_compute. reflexivity.
  - apply contains_true. vm_compute. reflexivity.
  - vm_compute. reflexivity.
  - vm_compute. reflexivity.
Defined.

(** ** The comparator: what the order of the reported list matters for *)

Lemma contains_movable_of_reported (reported : list string) (x : string) :
  x ∈ reported ->
  Py.contains (SDP.movable_of reported) x = Py.contains SDP.movable_services x.
Proof.
  intros Hx. unfold SDP.movable_of, Py.filterfalse. rewrite contains_filter.
  unfold SDP.optional_not_present.
  apply contains_true in Hx as ->. by rewrite andb_false_r, andb_true_r.
Qed.

Lemma compare_services_OK_movable (reported : list string) :
  SDP.compare_services reported = Return "OK" <->
  List.filter (Py.contains SDP.movable_services) reported ≡ₚ SDP.movable_of reported /\
  Py.filterfalse (Py.contains SDP.movable_services) reported = fixed_expected reported.
Proof.
  rewrite compare_services_OK. unfold movable_reported, fixed_reported, Py.filterfalse.
  rewrite (filter_ext_in (Py.contains (SDP.movable_of reported))
             (Py.contains SDP.movable_services) reported)
    by (intros x Hx; apply contains_movable_of_reported; by apply list_elem_of_In).
  rewrite (filter_ext_in (fun x => negb (Py.contains (SDP.movable_of reported) x))
             (fun x => negb (Py.contains SDP.movable_services x)) reported)
    by (intros x Hx; f_equal; apply contains_movable_of_reported;
        by apply list_elem_of_In).
  done.
Qed.

Lemma expected_of_Permutation (reported reported' : list string) :
  reported ≡ₚ reported' ->
  SDP.expected_of reported = SDP.expected_of reported' /\
  SDP.movable_of reported = SDP.movable_of reported'.
Proof.
  intros Hp. rewrite !expected_of_presence, !movable_of_presence.
  by rewrite !(contains_Permutation _ _ _ Hp).
Qed.

(** Two reported lists with the same services and the same sequence of
    services that are not movable get the same verdict. *)
Lemma compare_services_same_verdict (reported reported' : list string) :
  reported ≡ₚ reported' ->
  Py.filterfalse (Py.contains SDP.movable_services) reported
    = Py.filterfalse (Py.contains SDP.movable_services) reported' ->
  SDP.compare_services reported = Return "OK" ->
  SDP.compare_services reported' = Return "OK".
Proof.
  intros Hp Hfix [Hmov Hseq]%compare_services_OK_movable.
  apply compare_services_OK_movable.
  destruct (expected_of_Permutation _ _ Hp) as [He Hm].
  unfold fixed_expected in *. rewrite <- He, <- Hm, <- Hfix. split; [|done].
  rewrite <- Hmov. apply filter_bool_Permutation. by symmetry.
Qed.

Lemma filterfalse_app {A} (f : A -> bool) (l1 l2 : list A) :
  Py.filterfalse f (l1 ++ l2) = Py.filterfalse f l1 ++ Py.filterfalse f l2.
Proof. apply List.filter_app. Qed.

(** X3: a movable service (Message Access Server or TMAS) can be
    reported at any place: moving it leaves the verdict as it is. *)
Theorem movable_service_anywhere (m : string) (l1 l2 l1' l2' : list string) :
  m ∈ SDP.movable_services ->
  l1 ++ l2 = l1' ++ l2' ->
  (SDP.compare_services (l1 ++ m :: l2) = Return "OK" <->
   SDP.compare_services (l1' ++ m :: l2') = Return "OK").
Proof.
  intros Hm Heq.
  assert (Hp : l1 ++ m :: l2 ≡ₚ l1' ++ m :: l2')
    by (rewrite <- !Permutation_middle; by rewrite Heq).
  assert (Hfix : Py.filterfalse (Py.contains SDP.movable_services) (l1 ++ m :: l2)
                 = Py.filterfalse (Py.contains SDP.movable_services) (l1' ++ m :: l2')).
  { rewrite !filterfalse_app. unfold Py.filterfalse at 2 4. simpl.
    apply contains_true in Hm as ->. simpl.
    fold (Py.filterfalse (Py.contains SDP.movable_services) l2).
    fold (Py.filterfalse (Py.contains SDP.movable_services) l2').
    by rewrite <- !filterfalse_app, Heq. }
  split; apply compare_services_same_verdict; done.
Qed.

Lemma movable_service_anywhere_witness :
  SDP.compare_services
    (["Message Access Server"] ++ "Generic Access" ::
     ["AudioSource"; "A/V_RemoteControlTarget"; "A/V_RemoteControl";
      "Headset - Audio Gateway"; "GenericAudio"; "HandsfreeAudioGateway";
      "GenericAudio"; "NAP"; "PANU"; "Phonebook Access - PSE"; "OBEXObjectPush"])
  = Return "OK".
Proof.
  apply (proj1 (movable_service_anywhere "Message Access Server"
    ["Generic Access"; "AudioSource"; "A/V_RemoteControlTarget"; "A/V_RemoteControl";
     "Headset - Audio Gateway"; "GenericAudio"; "HandsfreeAudioGateway";
     "GenericAudio"]
    ["NAP"; "PANU"; "Phonebook Access - PSE"; "OBEXObjectPush"]
    []
    ["Generic Access"; "AudioSource"; "A/V_RemoteControlTarget"; "A/V_RemoteControl";
     "Headset - Audio Gateway"; "GenericAudio"; "HandsfreeAudioGateway";
     "GenericAudio"; "NAP"; "PANU"; "Phonebook Access - PSE"; "OBEXObjectPush"]
    ltac:(apply contains_true; vm_compute; reflexivity) eq_refl)).
  vm_compute. reflexivity.
Defined.

(** X4: the other services have to come in the expected order:
    exchanging two neighbours of a passing list, different and not
    movable, gives a list that fails. *)
Theorem swapped_neighbours_fail (a b : string) (l1 l2 : list string) :
  a <> b ->
  a ∉ SDP.movable_services -> b ∉ SDP.movable_services ->
  SDP.compare_services (l1 ++ a :: b :: l2) = Return "OK" ->
  is_assertion_error (SDP.compare_services (l1 ++ b :: a :: l2)).
Proof.
  intros Hne Ha Hb HOK.
  destruct (compare_services_total (l1 ++ b :: a :: l2)) as [HOK'|]; [|done].
  exfalso.
  assert (Hp : l1 ++ a :: b :: l2 ≡ₚ l1 ++ b :: a :: l2)
    by (apply Permutation_app_head, perm_swap).
  destruct (expected_of_Permutation _ _ Hp) as [He Hm].
  apply compare_services_OK_movable in HOK as [_ Hseq].
  apply compare_services_OK_movable in HOK' as [_ Hseq'].
  unfold fixed_expected in *. rewrite <- He, <- Hm, <- Hseq in Hseq'.
  rewrite !filterfalse_app in Hseq'. apply app_inv_head in Hseq'.
  unfold Py.filterfalse, Py.contains in Hseq'. simpl in Hseq'.
  rewrite !(bool_decide_eq_false_2 _ Ha), !(bool_decide_eq_false_2 _ Hb) in Hseq'.
  simpl in Hseq'. congruence.
Qed.

Lemma swapped_neighbours_fail_witness :
  is_assertion_error (SDP.compare_services
    (["Generic Access"] ++ "A/V_RemoteControlTarget" :: "AudioSource" ::
     ["A/V_RemoteControl"; "Headset - Audio Gateway"; "GenericAudio";
      "HandsfreeAudioGateway"; "GenericAudio"; "Message Access Server"; "NAP";
      "PANU"; "Phonebook Access - PSE"; "OBEXObjectPush"])).
Proof.
  apply (swapped_neighbours_fail "AudioSource" "A/V_RemoteControlTarget").
  - discriminate.
  - rewrite <- contains_true. vm_compute. discriminate.
  - rewrite <- contains_true. vm_compute. discriminate.
  - vm_compute. reflexivity.
Defined.

(** ** The comparator: optional services left out *)

Lemma filter_absent_cons (s : string) (absent l : list string) :
  Py.filterfalse (Py.contains (s :: absent)) l
  = without s (Py.filterfalse (Py.contains absent) l).
Proof.
  unfold without, Py.filterfalse. rewrite filter_filter_andb.
  apply filter_ext. intros x. rewrite contains_cons.
  destruct (decide (x = s)) as [->|Hne].
  - rewrite String.eqb_refl.
    rewrite (bool_decide_eq_false_2 (s <> s)) by (intros H; by apply H).
    by rewrite andb_false_r.
  - rewrite (proj2 (String.eqb_neq x s) Hne).
    rewrite (bool_decide_eq_true_2 (x <> s)) by done.
    by rewrite andb_true_r.
Qed.

(** X5: the expected list with any of the optional services left out
    passes. *)
Theorem expected_without_optional_passes (absent : list string) :
  (forall s, s ∈ absent -> s ∈ SDP.optional_services) ->
  SDP.compare_services
    (Py.filterfalse (Py.contains absent) SDP.expected_services) = Return "OK".
Proof.
  induction absent as [|s absent IH]; intros Hopt.
  - vm_compute. reflexivity.
  - rewrite filter_absent_cons. apply compare_services_without.
    + apply Hopt. left.
    + apply IH. intros x Hx. apply Hopt. by right.
Qed.

Lemma expected_without_optional_passes_witness :
  SDP.compare_services
    (Py.filterfalse (Py.contains ["TMAS"; "Generic Attribute service"])
       SDP.expected_services) = Return "OK".
Proof.
  apply (expected_without_optional_passes ["TMAS"; "Generic Attribute service"]).
  intros s Hs. apply contains_true.
  apply elem_of_cons in Hs as [->|Hs]; [vm_compute; reflexivity|].
  apply elem_of_cons in Hs as [->|Hs]; [vm_compute; reflexivity|].
  by apply elem_of_nil in Hs.
Defined.

(** ** The pairing responder over several events *)

Lemma answer_event_no_request (e : SM.PairingEvent) (q : list string) (t : list SM.io) :
  SM.passkey_entry_request e = false ->
  SM.answer_event e {| SM.passkey_queue := q; SM.trace := t |} =
  ({| SM.passkey_queue := q; SM.trace := t ++ SM.confirmation e |}, Return tt).
Proof.
  intros Hper.
  unfold SM.answer_event, SM.confirmation, pbind, SM.pairing_events_send,
    SM.log, modify, ret.
  rewrite Hper.
  destruct (SM.just_works e || Py.truthy (SM.numeric_comparison e)); simpl;
    by rewrite ?app_nil_r.
Qed.




Lemma answer_event_invariants (e : SM.PairingEvent) (st : SM.SMProxy) :
  SM.passkey_queue (SM.answer_event e st).1 `suffix_of` SM.passkey_queue st /\
  SM.trace st `prefix_of` SM.trace (SM.answer_event e st).1 /\
  List.length (SM.passkey_queue st) <=
    List.length (SM.passkey_queue (SM.answer_event e st).1)
    + (if SM.passkey_entry_request e then 1 else 0).
Proof.
  unfold SM.answer_event, pbind, try_except, SM.Queue_get, lift,
    SM.pairing_events_send, SM.debug, SM.log, modify, ret.
  destruct (SM.just_works e || Py.truthy (SM.numeric_comparison e));
    destruct (SM.passkey_entry_request e); simpl;
    try (destruct (SM.passkey_queue st) as [|item rest]; simpl;
         [|destruct (Py.int_10 item) as [n|[]]; simpl]);
    (split; [|split]);
    try lia; try done;
    try (by apply suffix_cons_r);
    try (by apply suffix_nil);
    rewrite <- ?app_assoc; by apply prefix_app_r.
Qed.

(** X7: whatever the events are and however [task] ends, it only takes
    values off the front of the passkey queue, at most one for an event
    that asks for a passkey, and it only adds to what it has sent and
    printed. *)
Theorem task_invariants (events : list SM.PairingEvent) (st : SM.SMProxy) :
  SM.passkey_queue (SM.task events st).1 `suffix_of` SM.passkey_queue st /\
  SM.trace st `prefix_of` SM.trace (SM.task events st).1 /\
  List.length (SM.passkey_queue st) <=
    List.length (SM.passkey_queue (SM.task events st).1)
    + List.length (List.filter SM.passkey_entry_request events).
Proof.
  revert st. induction events as [|e events IH]; intros st.
  - simpl. split; [done|]. split; [done|lia].
  - cbn [SM.task]. unfold pbind.
    pose proof (answer_event_invariants e st) as (Hq & Ht & Hl).
    destruct (SM.answer_event e st) as [st1 [[]|x]]; simpl in *.
    + destruct (IH st1) as (Hq' & Ht' & Hl').
      split; [by etransitivity|]. split; [by etransitivity|].
      destruct (SM.passkey_entry_request e); simpl; lia.
    + split; [done|]. split; [done|].
      destruct (SM.passkey_entry_request e); simpl; lia.
Qed.

(** X8: while nothing is on the passkey queue, no event ends [task]:
    each event gets its confirmation, if [just_works] or a number other
    than 0 is read, and then, if [passkey_entry_request] is read, one
    wait that ends with the line on stderr; no passkey is sent and the
    queue stays empty. *)
Theorem task_on_empty_queue (events : list SM.PairingEvent) (t : list SM.io) :
  SM.task events {| SM.passkey_queue := []; SM.trace := t |} =
  ({| SM.passkey_queue := [];
      SM.trace := t ++
        flat_map (fun e =>
          SM.confirmation e ++
          (if SM.passkey_entry_request e
           then [SM.Got 15 None; SM.Debug "No passkey provided within 15 seconds"]
           else []))
          events |},
   Return tt).
Proof.
  revert t. induction events as [|e events IH]; intros t.
  - simpl. by rewrite app_nil_r.
  - cbn [SM.task flat_map]. unfold pbind at 1.
    destruct (SM.passkey_entry_request e) eqn:Hper.
    + rewrite (answer_event_timeout _ _ Hper), IH. by rewrite <- !app_assoc.
    + rewrite (answer_event_no_request _ _ _ Hper), IH.
      by rewrite app_nil_r, <- !app_assoc.
Qed.

(** ** From the passkey prompt to the answer *)






(** ** L2CAP: the connection request, before and after *)

(** X10: without a stored advertise stream the request cannot start: a
    proxy that never stored one raises the attribute error and stays as
    it is; a stream with nothing left raises [StopIteration], and the
    connection stays unset and the status map as it was. *)
Theorem connection_request_without_stream
    (l2cap_Connect : L2CAP.Connection -> N -> result L2CAP.ConnectResponse)
    (test : string) (pts_addr : list Byte.byte) (st : L2CAP.L2CAPProxy) :
  L2CAP.connection st = None ->
  (L2CAP.advertise st = None ->
     L2CAP.MMI_IUT_SEND_LE_CREDIT_BASED_CONNECTION_REQUEST l2cap_Connect test pts_addr st
     = (st, Raise (AttributeError "advertise"))) /\
  (L2CAP.advertise st = Some [] ->
     L2CAP.MMI_IUT_SEND_LE_CREDIT_BASED_CONNECTION_REQUEST l2cap_Connect test pts_addr st
     = ({| L2CAP.test_status_map := L2CAP.test_status_map st;
           L2CAP.connection := None;
           L2CAP.channel := L2CAP.channel st;
           L2CAP.advertise := Some [];
           L2CAP.calls := L2CAP.calls st ++ [L2CAP.next_advertise];
           L2CAP.stderr := L2CAP.stderr st |},
        Raise StopIteration)).
Proof.
  intros Hconn.
  unfold L2CAP.MMI_IUT_SEND_LE_CREDIT_BASED_CONNECTION_REQUEST.
  split; intros Hadv;
    unfold pbind at 1; unfold gets; rewrite Hconn;
    rewrite bool_decide_eq_false_2 by (intros [? ?]; done);
    rewrite andb_false_l;
    rewrite bool_decide_eq_true_2 by done;
    unfold L2CAP.assert_, pbind, ret, L2CAP.next_advertise_connection;
    rewrite Hadv; [done|]. by rewrite Hconn.
Qed.

Lemma connection_request_without_stream_witness :
  L2CAP.MMI_IUT_SEND_LE_CREDIT_BASED_CONNECTION_REQUEST
    (fun _ _ => Return (L2CAP.has_channel "cid")) "L2CAP/LE/CFC/BV-01-C" []
    {| L2CAP.test_status_map := ∅; L2CAP.connection := None;
       L2CAP.channel := None; L2CAP.advertise := None;
       L2CAP.calls := []; L2CAP.stderr := [] |}
  = ({| L2CAP.test_status_map := ∅; L2CAP.connection := None;
        L2CAP.channel := None; L2CAP.advertise := None;
        L2CAP.calls := []; L2CAP.stderr := [] |},
     Raise (AttributeError "advertise")).
Proof.
  apply (proj1 (connection_request_without_stream
    (fun _ _ => Return (L2CAP.has_channel "cid")) "L2CAP/LE/CFC/BV-01-C" []
    {| L2CAP.test_status_map := ∅; L2CAP.connection := None;
       L2CAP.channel := None; L2CAP.advertise := None;
       L2CAP.calls := []; L2CAP.stderr := [] |} eq_refl)).
  reflexivity.
Defined.

(** What the request leaves behind once it has taken a connection off
    the stream: the connection is set whatever Connect answers, and the
    status map gets the entry of the test exactly when Connect fails on
    a test of [tests_target_to_fail]. *)
Lemma connection_request_leaves
    (l2cap_Connect : L2CAP.Connection -> N -> result L2CAP.ConnectResponse)
    (test : string) (pts_addr : list Byte.byte) (st : L2CAP.L2CAPProxy)
    (c : L2CAP.Connection) (rest : list L2CAP.Connection) :
  L2CAP.connection st = None ->
  L2CAP.advertise st = Some (c :: rest) ->
  let st' := (L2CAP.MMI_IUT_SEND_LE_CREDIT_BASED_CONNECTION_REQUEST
                l2cap_Connect test pts_addr st).1 in
  L2CAP.connection st' = Some c /\
  L2CAP.test_status_map st' =
    match l2cap_Connect c (L2CAP.spsm_of test) with
    | Return (L2CAP.has_channel _) => L2CAP.test_status_map st
    | _ => if Py.contains L2CAP.tests_target_to_fail test
           then <[test := "OK"]> (L2CAP.test_status_map st)
           else L2CAP.test_status_map st
    end /\
  L2CAP.channel st' =
    match l2cap_Connect c (L2CAP.spsm_of test) with
    | Return (L2CAP.has_channel ch) => Some ch
    | _ => L2CAP.channel st
    end.
Proof.
  intros Hconn Hadv st'. subst st'.
  remember (L2CAP.MMI_IUT_SEND_LE_CREDIT_BASED_CONNECTION_REQUEST
              l2cap_Connect test pts_addr st) as r eqn:Hr.
  unfold L2CAP.MMI_IUT_SEND_LE_CREDIT_BASED_CONNECTION_REQUEST in Hr.
  remember (L2CAP.spsm_of test) as psm eqn:Hpsm in *. clear Hpsm.
  unfold pbind at 1 in Hr; unfold gets in Hr; rewrite Hconn in Hr;
    rewrite bool_decide_eq_false_2 in Hr by (intros [? ?]; done);
    rewrite andb_false_l in Hr;
    rewrite bool_decide_eq_true_2 in Hr by done;
    unfold L2CAP.assert_, pbind, ret, L2CAP.next_advertise_connection in Hr;
    rewrite Hadv in Hr;
    unfold L2CAP.set_connection, modify, try_except, L2CAP.Connect,
      pbind, L2CAP.called, modify, lift in Hr; simpl in Hr.
  revert Hr.
  destruct (l2cap_Connect c psm) as [[ch|error]|e]; simpl;
    destruct (Py.contains L2CAP.tests_target_to_fail test); simpl;
    intros ->; repeat split; reflexivity.
Qed.

Lemma connection_request_connected
    (l2cap_Connect : L2CAP.Connection -> N -> result L2CAP.ConnectResponse)
    (test : string) (pts_addr : list Byte.byte) (st : L2CAP.L2CAPProxy) :
  is_Some (L2CAP.connection st) ->
  L2CAP.MMI_IUT_SEND_LE_CREDIT_BASED_CONNECTION_REQUEST l2cap_Connect test pts_addr st =
  (st, if test =? "L2CAP/LE/CFC/BV-02-C"
       then Return "OK"
       else Raise (AssertionError
              (AssertMsg "the connection should be None for the first call"))).
Proof.
  intros [c Hconn].
  unfold L2CAP.MMI_IUT_SEND_LE_CREDIT_BASED_CONNECTION_REQUEST.
  unfold pbind at 1. unfold gets. rewrite Hconn.
  rewrite bool_decide_eq_true_2 by eauto. rewrite andb_true_l.
  destruct (test =? "L2CAP/LE/CFC/BV-02-C"); [done|].
  rewrite bool_decide_eq_false_2 by done. done.
Qed.

(** X11: the request works once on a proxy: after a call that took a
    connection off the stream, whatever Connect answered and also when
    its failure was taken as the expected outcome, a second call
    changes nothing and fails the assertion on the connection, unless
    its test is L2CAP/LE/CFC/BV-02-C, for which it returns "OK". *)
Theorem second_connection_request
    (l2cap_Connect l2cap_Connect' : L2CAP.Connection -> N -> result L2CAP.ConnectResponse)
    (test test' : string) (pts_addr pts_addr' : list Byte.byte)
    (st : L2CAP.L2CAPProxy) (c : L2CAP.Connection) (rest : list L2CAP.Connection) :
  L2CAP.connection st = None ->
  L2CAP.advertise st = Some (c :: rest) ->
  let st' := (L2CAP.MMI_IUT_SEND_LE_CREDIT_BASED_CONNECTION_REQUEST
                l2cap_Connect test pts_addr st).1 in
  L2CAP.MMI_IUT_SEND_LE_CREDIT_BASED_CONNECTION_REQUEST l2cap_Connect' test' pts_addr' st' =
  (st', if test' =? "L2CAP/LE/CFC/BV-02-C"
        then Return "OK"
        else Raise (AssertionError
               (AssertMsg "the connection should be None for the first call"))).
Proof.
  intros Hconn Hadv st'. apply connection_request_connected.
  destruct (connection_request_leaves l2cap_Connect test pts_addr st c rest Hconn Hadv)
    as (Hc & _). exists c. exact Hc.
Qed.

Lemma second_connection_request_witness :
  L2CAP.MMI_IUT_SEND_LE_CREDIT_BASED_CONNECTION_REQUEST
    (fun _ _ => Return (L2CAP.has_error "LE_PSM not supported"))
    "L2CAP/LE/CFC/BV-04-C" []
    (L2CAP.MMI_IUT_SEND_LE_CREDIT_BASED_CONNECTION_REQUEST
       (fun _ _ => Return (L2CAP.has_error "LE_PSM not supported"))
       "L2CAP/LE/CFC/BV-04-C" []
       {| L2CAP.test_status_map := ∅; L2CAP.connection := None;
          L2CAP.channel := None; L2CAP.advertise := Some ["pts"];
          L2CAP.calls := []; L2CAP.stderr := [] |}).1
  = ((L2CAP.MMI_IUT_SEND_LE_CREDIT_BASED_CONNECTION_REQUEST
       (fun _ _ => Return (L2CAP.has_error "LE_PSM not supported"))
       "L2CAP/LE/CFC/BV-04-C" []
       {| L2CAP.test_status_map := ∅; L2CAP.connection := None;
          L2CAP.channel := None; L2CAP.advertise := Some ["pts"];
          L2CAP.calls := []; L2CAP.stderr := [] |}).1,
     if "L2CAP/LE/CFC/BV-04-C" =? "L2CAP/LE/CFC/BV-02-C"
     then Return "OK"
     else Raise (AssertionError
            (AssertMsg "the connection should be None for the first call"))).
Proof.
  apply (second_connection_request _ _ "L2CAP/LE/CFC/BV-04-C" "L2CAP/LE/CFC/BV-04-C"
           [] [] _ "pts" []); reflexivity.
Defined.

Lemma status_reader_lookup (h : string -> proc L2CAP.L2CAPProxy string)
    (test : string) (st : L2CAP.L2CAPProxy) :
  h ∈ L2CAP.status_readers ->
  (h test st).2 =
  match L2CAP.test_status_map st !! test with
  | None => Raise (KeyError test)
  | Some status =>
      if status =? "OK" then Return "OK"
      else Raise (Exception "Unexpected RECEIVE_COMMAND")
  end.
Proof.
  intros Hh. unfold L2CAP.status_readers in Hh.
  repeat (apply elem_of_cons in Hh as [->|Hh]);
    [..|by apply elem_of_nil in Hh];
    status_reader;
    (destruct (L2CAP.test_status_map st !! test) as [status|];
     [destruct (status =? "OK")|]; done).
Qed.

(** X12: on a test the status map has no entry for, a handler that
    reads the status map returns "OK" after the connection request
    exactly when the request has recorded that entry: Connect failed
    and the test is one of [tests_target_to_fail].  After a request
    that got its channel, and after a failure on any other test, the
    reader raises the key error. *)
Theorem status_reader_after_request
    (l2cap_Connect : L2CAP.Connection -> N -> result L2CAP.ConnectResponse)
    (h : string -> proc L2CAP.L2CAPProxy string)
    (test : string) (pts_addr : list Byte.byte) (st : L2CAP.L2CAPProxy)
    (c : L2CAP.Connection) (rest : list L2CAP.Connection) :
  h ∈ L2CAP.status_readers ->
  L2CAP.connection st = None ->
  L2CAP.advertise st = Some (c :: rest) ->
  L2CAP.test_status_map st !! test = None ->
  let st' := (L2CAP.MMI_IUT_SEND_LE_CREDIT_BASED_CONNECTION_REQUEST
                l2cap_Connect test pts_addr st).1 in
  let recorded :=
    test ∈ L2CAP.tests_target_to_fail /\
    forall ch, l2cap_Connect c (L2CAP.spsm_of test) <> Return (L2CAP.has_channel ch) in
  ((h test st').2 = Return "OK" <-> recorded) /\
  (~ recorded -> (h test st').2 = Raise (KeyError test)).
Proof.
  intros Hh Hconn Hadv Hnone st' recorded.
  destruct (connection_request_leaves l2cap_Connect test pts_addr st c rest Hconn Hadv)
    as (_ & Hmap & _). fold st' in Hmap.
  rewrite (status_reader_lookup h test st' Hh), Hmap.
  unfold recorded. rewrite <- contains_true.
  destruct (l2cap_Connect c (L2CAP.spsm_of test)) as [[ch|error]|e];
    destruct (Py.contains L2CAP.tests_target_to_fail test);
    rewrite ?lookup_insert_eq, ?Hnone; simpl; split;
    try (split; [done|intros [? H]; try done; by destruct (H ch)]);
    try (split; [intros _; split; done|done]);
    try done;
    intros Hn; exfalso; apply Hn; split; done.
Qed.

Lemma status_reader_after_request_witness :
  let st' := (L2CAP.MMI_IUT_SEND_LE_CREDIT_BASED_CONNECTION_REQUEST
                (fun _ _ => Return (L2CAP.has_channel "cid"))
                "L2CAP/LE/CFC/BV-04-C" []
                {| L2CAP.test_status_map := ∅; L2CAP.connection := None;
                   L2CAP.channel := None; L2CAP.advertise := Some ["pts"];
                   L2CAP.calls := []; L2CAP.stderr := [] |}).1 in
  (L2CAP.MMI_UPPER_TESTER_CONFIRM_RECEIVE_REJECT_PSM "L2CAP/LE/CFC/BV-04-C" st').2
  = Raise (KeyError "L2CAP/LE/CFC/BV-04-C").
Proof.
  intros st'.
  apply (proj2 (status_reader_after_request
    (fun _ _ => Return (L2CAP.has_channel "cid"))
    L2CAP.MMI_UPPER_TESTER_CONFIRM_RECEIVE_REJECT_PSM
    "L2CAP/LE/CFC/BV-04-C" []
    {| L2CAP.test_status_map := ∅; L2CAP.connection := None;
       L2CAP.channel := None; L2CAP.advertise := Some ["pts"];
       L2CAP.calls := []; L2CAP.stderr := [] |} "pts" []
    ltac:(apply list_elem_of_further, list_elem_of_here)
    eq_refl eq_refl eq_refl)).
  intros [_ H]. by apply (H "cid").
Defined.

(** ** L2CAP: from a new proxy to the connection request *)

(** X13: a new proxy has no advertise stream, so the connection request
    on it raises the attribute error; after
    [MMI_TESTER_ENABLE_LE_CONNECTION] on a test that opens no server
    socket (only the Advertise call is made) the request takes the
    first connection of the stream, asks Connect for the channel and
    stores it. *)
Theorem enable_then_request
    (l2cap_WaitConnection : N -> result L2CAPSession.WaitConnectionResponse)
    (l2cap_Connect : L2CAP.Connection -> N -> result L2CAP.ConnectResponse)
    (m : gmap string string) (test : string) (pts_addr : list Byte.byte)
    (c : L2CAP.Connection) (rest : list L2CAP.Connection) (ch : L2CAP.Channel) :
  test ∉ L2CAPSession.tests_to_open_bluetooth_server_socket ->
  l2cap_Connect c (L2CAP.spsm_of test) = Return (L2CAP.has_channel ch) ->
  L2CAPSession.on_proxy
    (L2CAP.MMI_IUT_SEND_LE_CREDIT_BASED_CONNECTION_REQUEST l2cap_Connect test pts_addr)
    (L2CAPSession.__init__ m)
  = (L2CAPSession.__init__ m, Raise (AttributeError "advertise")) /\
  L2CAPSession.MMI_TESTER_ENABLE_LE_CONNECTION (c :: rest) l2cap_WaitConnection test
    (L2CAPSession.__init__ m)
  = ({| L2CAPSession.proxy :=
          {| L2CAP.test_status_map := m; L2CAP.connection := None;
             L2CAP.channel := None; L2CAP.advertise := Some (c :: rest);
             L2CAP.calls := []; L2CAP.stderr := [] |};
        L2CAPSession.pairing_events := None; L2CAPSession.answers := [];
        L2CAPSession.host_calls := [L2CAPSession.Advertise_call] |},
     Return "OK") /\
  L2CAPSession.on_proxy
    (L2CAP.MMI_IUT_SEND_LE_CREDIT_BASED_CONNECTION_REQUEST l2cap_Connect test pts_addr)
    (L2CAPSession.MMI_TESTER_ENABLE_LE_CONNECTION (c :: rest) l2cap_WaitConnection test
       (L2CAPSession.__init__ m)).1
  = ({| L2CAPSession.proxy :=
          {| L2CAP.test_status_map := m; L2CAP.connection := Some c;
             L2CAP.channel := Some ch; L2CAP.advertise := Some rest;
             L2CAP.calls := [L2CAP.next_advertise;
                             L2CAP.Connect_call c (L2CAP.spsm_of test)];
             L2CAP.stderr := [] |};
        L2CAPSession.pairing_events := None; L2CAPSession.answers := [];
        L2CAPSession.host_calls := [L2CAPSession.Advertise_call] |},
     Return "OK").
Proof.
  intros Hin Hch.
  assert (Henable :
    L2CAPSession.MMI_TESTER_ENABLE_LE_CONNECTION (c :: rest) l2cap_WaitConnection test
      (L2CAPSession.__init__ m)
    = ({| L2CAPSession.proxy :=
            {| L2CAP.test_status_map := m; L2CAP.connection := None;
               L2CAP.channel := None; L2CAP.advertise := Some (c :: rest);
               L2CAP.calls := []; L2CAP.stderr := [] |};
          L2CAPSession.pairing_events := None; L2CAPSession.answers := [];
          L2CAPSession.host_calls := [L2CAPSession.Advertise_call] |},
       Return "OK")).
  { unfold L2CAPSession.MMI_TESTER_ENABLE_LE_CONNECTION, Py.contains.
    rewrite (bool_decide_eq_false_2 _ Hin). reflexivity. }
  split; [reflexivity|]. split; [exact Henable|].
  rewrite Henable. unfold L2CAPSession.on_proxy. cbn [fst L2CAPSession.proxy].
  unfold L2CAP.MMI_IUT_SEND_LE_CREDIT_BASED_CONNECTION_REQUEST.
  remember (L2CAP.spsm_of test) as psm eqn:Hpsm. clear Hpsm.
  unfold pbind, gets, L2CAP.assert_, ret, L2CAP.next_advertise_connection,
    L2CAP.set_connection, modify, try_except, L2CAP.Connect, L2CAP.called,
    lift, L2CAP.set_channel. simpl.
  rewrite Hch. reflexivity.
Qed.

Lemma enable_then_request_witness :
  L2CAPSession.on_proxy
    (L2CAP.MMI_IUT_SEND_LE_CREDIT_BASED_CONNECTION_REQUEST
       (fun _ _ => Return (L2CAP.has_channel "cid")) "L2CAP/LE/CFC/BV-02-C" [])
    (L2CAPSession.MMI_TESTER_ENABLE_LE_CONNECTION ("pts" :: [])
       (fun _ => Return (L2CAPSession.wait_error "unused")) "L2CAP/LE/CFC/BV-02-C"
       (L2CAPSession.__init__ ∅)).1
  = ({| L2CAPSession.proxy :=
          {| L2CAP.test_status_map := ∅; L2CAP.connection := Some "pts";
             L2CAP.channel := Some "cid"; L2CAP.advertise := Some [];
             L2CAP.calls := [L2CAP.next_advertise;
                             L2CAP.Connect_call "pts" (L2CAP.spsm_of "L2CAP/LE/CFC/BV-02-C")];
             L2CAP.stderr := [] |};
        L2CAPSession.pairing_events := None; L2CAPSession.answers := [];
        L2CAPSession.host_calls := [L2CAPSession.Advertise_call] |},
     Return "OK").
Proof.
  apply (proj2 (proj2 (enable_then_request
    (fun _ => Return (L2CAPSession.wait_error "unused"))
    (fun _ _ => Return (L2CAP.has_channel "cid"))
    ∅ "L2CAP/LE/CFC/BV-02-C" [] "pts" [] "cid"
    ltac:(rewrite <- contains_true; vm_compute; discriminate) eq_refl))).
Defined.

(** X14: on a test that opens the server socket,
    [MMI_TESTER_ENABLE_LE_CONNECTION] waits for the connection with
    spsm 0: a response with a channel stores it, a response with an
    error raises the exception of that error, and a failing call raises
    its own; in the two failing cases the advertise stream has been
    stored all the same and no channel is set. *)
Theorem enable_le_connection_server_socket
    (host_Advertise : list L2CAP.Connection)
    (l2cap_WaitConnection : N -> result L2CAPSession.WaitConnectionResponse)
    (test : string) (s : L2CAPSession.Proxy) :
  test ∈ L2CAPSession.tests_to_open_bluetooth_server_socket ->
  let r := L2CAPSession.MMI_TESTER_ENABLE_LE_CONNECTION
             host_Advertise l2cap_WaitConnection test s in
  L2CAPSession.host_calls r.1 =
    L2CAPSession.host_calls s ++
    [L2CAPSession.Advertise_call; L2CAPSession.WaitConnection_call 0] /\
  L2CAP.advertise (L2CAPSession.proxy r.1) = Some host_Advertise /\
  match l2cap_WaitConnection 0%N with
  | Return (L2CAPSession.wait_channel ch) =>
      r.2 = Return "OK" /\ L2CAP.channel (L2CAPSession.proxy r.1) = Some ch
  | Return (L2CAPSession.wait_error error) =>
      r.2 = Raise (Exception error) /\
      L2CAP.channel (L2CAPSession.proxy r.1) = L2CAP.channel (L2CAPSession.proxy s)
  | Raise e =>
      r.2 = Raise e /\
      L2CAP.channel (L2CAPSession.proxy r.1) = L2CAP.channel (L2CAPSession.proxy s)
  end.
Proof.
  intros Hin r. subst r.
  unfold L2CAPSession.MMI_TESTER_ENABLE_LE_CONNECTION.
  apply contains_true in Hin. rewrite Hin.
  unfold pbind, L2CAPSession.called, L2CAPSession.on_proxy,
    L2CAPSession.set_advertise, L2CAP.set_channel, modify, lift, ret, raise.
  simpl.
  destruct (l2cap_WaitConnection 0%N) as [[ch|error]|e]; simpl;
    rewrite <- ?app_assoc; repeat split; reflexivity.
Qed.

Lemma enable_le_connection_server_socket_witness :
  let r := L2CAPSession.MMI_TESTER_ENABLE_LE_CONNECTION
             ["pts"] (fun _ => Return (L2CAPSession.wait_error "refused"))
             "L2CAP/LE/CFC/BV-03-C" (L2CAPSession.__init__ ∅) in
  L2CAPSession.host_calls r.1 =
    L2CAPSession.host_calls (L2CAPSession.__init__ ∅) ++
    [L2CAPSession.Advertise_call; L2CAPSession.WaitConnection_call 0] /\
  L2CAP.advertise (L2CAPSession.proxy r.1) = Some ["pts"] /\
  r.2 = Raise (Exception "refused") /\
  L2CAP.channel (L2CAPSession.proxy r.1)
    = L2CAP.channel (L2CAPSession.proxy (L2CAPSession.__init__ ∅)).
Proof.
  exact (enable_le_connection_server_socket
    ["pts"] (fun _ => Return (L2CAPSession.wait_error "refused"))
    "L2CAP/LE/CFC/BV-03-C" (L2CAPSession.__init__ ∅)
    ltac:(apply contains_true; vm_compute; reflexivity)).
Defined.

(** X15: [test_status_map] belongs to the class, and [__init__] leaves
    it as it is: the 'OK' that a failed connection request has recorded
    for a test of [tests_target_to_fail] makes every handler that reads
    the status map return "OK" for that test on a new proxy too, with
    no connection request made on it. *)
Theorem status_survives_new_proxy
    (l2cap_Connect : L2CAP.Connection -> N -> result L2CAP.ConnectResponse)
    (h : string -> proc L2CAP.L2CAPProxy string)
    (test : string) (pts_addr : list Byte.byte) (st : L2CAP.L2CAPProxy)
    (c : L2CAP.Connection) (rest : list L2CAP.Connection) :
  h ∈ L2CAP.status_readers ->
  L2CAP.connection st = None ->
  L2CAP.advertise st = Some (c :: rest) ->
  test ∈ L2CAP.tests_target_to_fail ->
  (forall ch, l2cap_Connect c (L2CAP.spsm_of test) <> Return (L2CAP.has_channel ch)) ->
  let st' := (L2CAP.MMI_IUT_SEND_LE_CREDIT_BASED_CONNECTION_REQUEST
                l2cap_Connect test pts_addr st).1 in
  (h test (L2CAPSession.proxy
             (L2CAPSession.__init__ (L2CAP.test_status_map st')))).2
  = Return "OK".
Proof.
  intros Hh Hconn Hadv Hin Hfail st'.
  destruct (connection_request_leaves l2cap_Connect test pts_addr st c rest Hconn Hadv)
    as (_ & Hmap & _). fold st' in Hmap.
  rewrite (status_reader_lookup h test _ Hh). cbn [L2CAPSession.proxy
    L2CAPSession.__init__ L2CAP.test_status_map]. rewrite Hmap.
  apply contains_true in Hin. rewrite Hin.
  destruct (l2cap_Connect c (L2CAP.spsm_of test)) as [[ch|error]|e];
    [by destruct (Hfail ch)|..]; by rewrite lookup_insert_eq.
Qed.

Lemma status_survives_new_proxy_witness :
  (L2CAP.MMI_UPPER_TESTER_CONFIRM_RECEIVE_REJECT_PSM "L2CAP/LE/CFC/BV-04-C"
     (L2CAPSession.proxy
        (L2CAPSession.__init__
           (L2CAP.test_status_map
              (L2CAP.MMI_IUT_SEND_LE_CREDIT_BASED_CONNECTION_REQUEST
                 (fun _ _ => Return (L2CAP.has_error "LE_PSM not supported"))
                 "L2CAP/LE/CFC/BV-04-C" []
                 {| L2CAP.test_status_map := ∅; L2CAP.connection := None;
                    L2CAP.channel := None; L2CAP.advertise := Some ["pts"];
                    L2CAP.calls := []; L2CAP.stderr := [] |}).1)))).2
  = Return "OK".
Proof.
  apply (status_survives_new_proxy
    (fun _ _ => Return (L2CAP.has_error "LE_PSM not supported"))
    L2CAP.MMI_UPPER_TESTER_CONFIRM_RECEIVE_REJECT_PSM
    "L2CAP/LE/CFC/BV-04-C" []
    {| L2CAP.test_status_map := ∅; L2CAP.connection := None;
       L2CAP.channel := None; L2CAP.advertise := Some ["pts"];
       L2CAP.calls := []; L2CAP.stderr := [] |} "pts" []).
  - apply list_elem_of_further, list_elem_of_here.
  - reflexivity.
  - reflexivity.
  - apply contains_true. vm_compute. reflexivity.
  - discriminate.
Defined.

(** ** L2CAP: the numeric comparison of [_mmi_2001] *)

(** X16: [_mmi_2001] looks at one event only.  It returns "OK" exactly
    when the stream has a first event and its number is 0 (the passkey
    000000), and then sends the one confirmation; a first event with
    another number fails with "The passkey does not match" and nothing
    is sent, whatever comes after it; either way the first event is off
    the stream and the rest stays.  A stream that has ended fails with
    "Unexpected pairing event", and a proxy that never opened the
    stream ends with the type error of iterating [None]. *)
Theorem mmi_2001_first_event_only (s : L2CAPSession.Proxy) :
  ((L2CAPSession._mmi_2001 s).2 = L2CAPSession.Finished (Return "OK") <->
     exists e rest, L2CAPSession.pairing_events s = Some (e :: rest) /\
                    SM.numeric_comparison e = 0%N) /\
  (forall e rest, L2CAPSession.pairing_events s = Some (e :: rest) ->
     L2CAPSession.pairing_events (L2CAPSession._mmi_2001 s).1 = Some rest /\
     L2CAPSession.answers (L2CAPSession._mmi_2001 s).1 =
       L2CAPSession.answers s ++
       (if (SM.numeric_comparison e =? 0)%N
        then [{| SM.event := e; SM.answer_of := SM.confirm true |}]
        else []) /\
     (SM.numeric_comparison e <> 0%N ->
      (L2CAPSession._mmi_2001 s).2 =
      L2CAPSession.Finished
        (Raise (AssertionError (AssertMsg "The passkey does not match"))))) /\
  (L2CAPSession.pairing_events s = Some [] ->
     L2CAPSession._mmi_2001 s =
     (s, L2CAPSession.Finished
           (Raise (AssertionError (AssertMsg "Unexpected pairing event"))))) /\
  (L2CAPSession.pairing_events s = None ->
     L2CAPSession._mmi_2001 s =
     (s, L2CAPSession.TypeError "'NoneType' object is not iterable")).
Proof.
  unfold L2CAPSession._mmi_2001.
  change (Py.int_10 "000000") with (@Return N 0%N). cbv beta iota zeta.
  destruct (L2CAPSession.pairing_events s) as [[|e rest]|] eqn:Hev.
  - split; [split; [done|intros (? & ? & ? & _); done]|].
    split; [done|]. split; done.
  - split.
    + destruct (SM.numeric_comparison e =? 0)%N eqn:Hn; simpl.
      * apply N.eqb_eq in Hn. split; [eauto|done].
      * apply N.eqb_neq in Hn. split; [done|].
        intros (e' & rest' & [= <- <-] & H0). done.
    + split; [|split; done].
      intros e' rest' [= <- <-].
      destruct (SM.numeric_comparison e =? 0)%N eqn:Hn; simpl.
      * apply N.eqb_eq in Hn. split; [done|]. split; [done|]. done.
      * split; [done|]. split; [by rewrite app_nil_r|done].
  - split; [split; [done|intros (? & ? & ? & _); done]|].
    split; [done|]. split; done.
Qed.

(** ** L2CAP: disconnecting, receiving and sending *)

(** X17: [MMI_IUT_SEND_ACL_DISCONNECTION] makes no call for a test of
    [tests_to_skip_disconnect] and one Disconnect call for any other
    test, and in no case clears [self.connection]: when a connection
    was set, a connection request after it still fails the assertion on
    the connection (or returns "OK" at once for L2CAP/LE/CFC/BV-02-C). *)
Theorem acl_disconnection_keeps_connection
    (host_Disconnect : option L2CAP.Connection -> result unit)
    (l2cap_Connect : L2CAP.Connection -> N -> result L2CAP.ConnectResponse)
    (test test' : string) (pts_addr : list Byte.byte) (s : L2CAPSession.Proxy) :
  let r := L2CAPSession.MMI_IUT_SEND_ACL_DISCONNECTION host_Disconnect test s in
  L2CAPSession.proxy r.1 = L2CAPSession.proxy s /\
  L2CAPSession.host_calls r.1 =
    L2CAPSession.host_calls s ++
    (if Py.contains L2CAPSession.tests_to_skip_disconnect test
     then []
     else [L2CAPSession.Disconnect_call (L2CAP.connection (L2CAPSession.proxy s))]) /\
  (Py.contains L2CAPSession.tests_to_skip_disconnect test = true -> r.2 = Return "OK") /\
  (is_Some (L2CAP.connection (L2CAPSession.proxy s)) ->
   L2CAPSession.on_proxy
     (L2CAP.MMI_IUT_SEND_LE_CREDIT_BASED_CONNECTION_REQUEST l2cap_Connect test' pts_addr)
     r.1
   = (r.1, if test' =? "L2CAP/LE/CFC/BV-02-C"
           then Return "OK"
           else Raise (AssertionError
                  (AssertMsg "the connection should be None for the first call")))).
Proof.
  intros r.
  assert (Hp : L2CAPSession.proxy r.1 = L2CAPSession.proxy s).
  { subst r. unfold L2CAPSession.MMI_IUT_SEND_ACL_DISCONNECTION, pbind,
      L2CAPSession.on_proxy, L2CAPSession.called, gets, modify, lift, ret.
    destruct (Py.contains L2CAPSession.tests_to_skip_disconnect test); simpl;
      [by destruct s|].
    destruct (host_Disconnect _) as [[]|e]; simpl; by destruct (L2CAPSession.proxy s). }
  split; [exact Hp|]. split; [|split].
  - subst r. unfold L2CAPSession.MMI_IUT_SEND_ACL_DISCONNECTION, pbind,
      L2CAPSession.on_proxy, L2CAPSession.called, gets, modify, lift, ret.
    destruct (Py.contains L2CAPSession.tests_to_skip_disconnect test); simpl;
      [by rewrite app_nil_r|].
    by destruct (host_Disconnect _) as [[]|e].
  - intros Hskip. subst r.
    unfold L2CAPSession.MMI_IUT_SEND_ACL_DISCONNECTION, pbind. by rewrite Hskip.
  - intros Hc. unfold L2CAPSession.on_proxy.
    rewrite connection_request_connected by (by rewrite Hp).
    by destruct r.1.
Qed.

(** X18: [MMI_UPPER_TESTER_CONFIRM_DATA_RECEIVE] returns "OK" exactly
    when a channel is set and the first packet received on it has at
    least one byte; empty data fails the assertion on the data. *)
Theorem confirm_data_receive_iff
    (l2cap_Receive : L2CAP.Channel -> result (list Byte.byte))
    (s : L2CAPSession.Proxy) :
  ((L2CAPSession.MMI_UPPER_TESTER_CONFIRM_DATA_RECEIVE l2cap_Receive s).2 = Return "OK"
   <-> exists ch b data,
         L2CAP.channel (L2CAPSession.proxy s) = Some ch /\
         l2cap_Receive ch = Return (b :: data)) /\
  (forall ch, L2CAP.channel (L2CAPSession.proxy s) = Some ch ->
     l2cap_Receive ch = Return [] ->
     (L2CAPSession.MMI_UPPER_TESTER_CONFIRM_DATA_RECEIVE l2cap_Receive s).2
     = Raise (AssertionError (AssertMsg "data received should not be empty"))).
Proof.
  unfold L2CAPSession.MMI_UPPER_TESTER_CONFIRM_DATA_RECEIVE, pbind,
    L2CAPSession.on_proxy, L2CAPSession.called, gets, modify, lift, ret, raise.
  simpl.
  destruct (L2CAP.channel (L2CAPSession.proxy s)) as [ch|]; simpl.
  - destruct (l2cap_Receive ch) as [[|b data]|e] eqn:Hr; simpl.
    + split; [split; [done|]|done].
      intros (ch' & b & data & [= <-] & H). congruence.
    + split; [split; [eauto 6|done]|].
      intros ch' [= <-] H. congruence.
    + split; [split; [done|]|].
      * intros (ch' & b & data & [= <-] & H). congruence.
      * intros ch' [= <-] H. congruence.
  - split; [split; [done|]|done].
    intros (ch' & b & data & H & _). done.
Qed.

(** X19: without a channel nothing is sent and nothing is received:
    each of the four send handlers and the receive handler raises the
    assertion error and leaves the proxy as it is, whatever the remote
    service would answer. *)
Theorem no_channel_no_data
    (l2cap_Send : L2CAP.Channel -> list Byte.byte -> result unit)
    (l2cap_Receive : L2CAP.Channel -> result (list Byte.byte))
    (s : L2CAPSession.Proxy) :
  L2CAP.channel (L2CAPSession.proxy s) = None ->
  let failed := Raise (AssertionError (AssertMsg "")) in
  L2CAP.MMI_UPPER_TESTER_SEND_LE_DATA_PACKET_LARGE l2cap_Send (L2CAPSession.proxy s)
    = (L2CAPSession.proxy s, failed) /\
  L2CAP.MMI_UPPER_TESTER_SEND_LE_DATA_PACKET1 l2cap_Send (L2CAPSession.proxy s)
    = (L2CAPSession.proxy s, failed) /\
  L2CAPSession.MMI_UPPER_TESTER_SEND_LE_DATA_PACKET4 l2cap_Send (L2CAPSession.proxy s)
    = (L2CAPSession.proxy s, failed) /\
  L2CAPSession.MMI_UPPER_TESTER_SEND_LE_DATA_PACKET_CONTINUE l2cap_Send (L2CAPSession.proxy s)
    = (L2CAPSession.proxy s, failed) /\
  L2CAPSession.MMI_UPPER_TESTER_CONFIRM_DATA_RECEIVE l2cap_Receive s = (s, failed).
Proof.
  intros Hch failed.
  unfold L2CAP.MMI_UPPER_TESTER_SEND_LE_DATA_PACKET_LARGE,
    L2CAP.MMI_UPPER_TESTER_SEND_LE_DATA_PACKET1,
    L2CAPSession.MMI_UPPER_TESTER_SEND_LE_DATA_PACKET4,
    L2CAPSession.MMI_UPPER_TESTER_SEND_LE_DATA_PACKET_CONTINUE,
    L2CAPSession.MMI_UPPER_TESTER_CONFIRM_DATA_RECEIVE,
    pbind, L2CAPSession.on_proxy, gets.
  rewrite Hch. repeat split; try reflexivity.
  simpl. by destruct s.
Qed.

Lemma no_channel_no_data_witness :
  L2CAPSession.MMI_UPPER_TESTER_SEND_LE_DATA_PACKET4 (fun _ _ => Return tt)
    (L2CAPSession.proxy (L2CAPSession.__init__ ∅))
  = (L2CAPSession.proxy (L2CAPSession.__init__ ∅),
     Raise (AssertionError (AssertMsg ""))).
Proof.
  exact (proj1 (proj2 (proj2 (no_channel_no_data
    (fun _ _ => Return tt) (fun _ => Return [])
    (L2CAPSession.__init__ ∅) eq_refl)))).
Defined.

(** ** SM: the connection of the pairing thread *)

(** X20: [MMI_IUT_SEND_DISCONNECTION_REQUEST] calls Disconnect with
    whatever [self.connection] is, also [None]; when the call returns,
    the connection is cleared and the function of the pairing thread
    makes no Secure call afterwards; when the call raises, the
    exception leaves the handler and the connection stays, and that
    function still asks to secure it. *)
Theorem disconnection_request_then_secure
    (host_Disconnect : option L2CAP.Connection -> result unit)
    (security_Secure : L2CAP.Connection -> result unit)
    (st : SMHost.SMProxy) :
  let r := SMHost.MMI_IUT_SEND_DISCONNECTION_REQUEST host_Disconnect st in
  SMHost.calls r.1 = SMHost.calls st ++ [SMHost.Disconnect_call (SMHost.connection st)] /\
  (host_Disconnect (SMHost.connection st) = Return tt ->
     r.2 = Return "OK" /\ SMHost.connection r.1 = None /\
     SMHost.secure security_Secure r.1 = (r.1, Return tt)) /\
  (forall e, host_Disconnect (SMHost.connection st) = Raise e ->
     r.2 = Raise e /\ SMHost.connection r.1 = SMHost.connection st /\
     forall c, SMHost.connection st = Some c ->
       SMHost.calls (SMHost.secure security_Secure r.1).1
       = SMHost.calls r.1 ++ [SMHost.Secure_call c]).
Proof.
  intros r. subst r.
  unfold SMHost.MMI_IUT_SEND_DISCONNECTION_REQUEST, SMHost.secure, pbind, gets,
    SMHost.called, SMHost.set_connection, modify, lift, ret.
  simpl.
  destruct (host_Disconnect (SMHost.connection st)) as [[]|e]; simpl.
  - split; [done|]. split; [done|]. intros e H. done.
  - split; [done|]. split; [done|].
    intros e' [= <-]. split; [done|]. split; [done|].
    intros c Hc. rewrite Hc. simpl. by destruct (security_Secure c).
Qed.

(** ** OPP: accepting the connection *)

(** X21: [TSC_OBEX_MMI_iut_accept_connect_OPP] waits for a connection
    only while the proxy has none: once a connection is stored, the
    handler returns "OK" with no call and keeps it; a wait that raises
    leaves the proxy without a connection.
    [TSC_OBEX_MMI_iut_accept_slc_connect_l2cap] waits again every
    time and replaces the connection. *)
Theorem accept_connect_OPP_waits_once
    (host_WaitConnection : list Byte.byte -> result L2CAP.Connection)
    (pts_addr : list Byte.byte) (st : OPP.OPPProxy) :
  (forall c, OPP.connection st = Some c ->
     OPP.TSC_OBEX_MMI_iut_accept_connect_OPP host_WaitConnection pts_addr st
     = (st, Return "OK")) /\
  (OPP.connection st = None ->
     OPP.TSC_OBEX_MMI_iut_accept_connect_OPP host_WaitConnection pts_addr st =
     match host_WaitConnection pts_addr with
     | Return c =>
         ({| OPP.connection := Some c;
             OPP.calls := OPP.calls st ++ [OPP.WaitConnection_call pts_addr] |},
          Return "OK")
     | Raise e =>
         ({| OPP.connection := None;
             OPP.calls := OPP.calls st ++ [OPP.WaitConnection_call pts_addr] |},
          Raise e)
     end) /\
  OPP.TSC_OBEX_MMI_iut_accept_slc_connect_l2cap host_WaitConnection pts_addr st =
    match host_WaitConnection pts_addr with
    | Return c =>
        ({| OPP.connection := Some c;
            OPP.calls := OPP.calls st ++ [OPP.WaitConnection_call pts_addr] |},
         Return "OK")
    | Raise e =>
        ({| OPP.connection := OPP.connection st;
            OPP.calls := OPP.calls st ++ [OPP.WaitConnection_call pts_addr] |},
         Raise e)
    end.
Proof.
  unfold OPP.TSC_OBEX_MMI_iut_accept_connect_OPP,
    OPP.TSC_OBEX_MMI_iut_accept_slc_connect_l2cap, pbind, gets, OPP.called,
    OPP.set_connection, modify, lift, ret.
  split; [|split].
  - intros c Hc. rewrite Hc. rewrite bool_decide_eq_false_2 by done. done.
  - intros Hc. rewrite Hc. rewrite bool_decide_eq_true_2 by done. simpl.
    destruct (host_WaitConnection pts_addr); simpl; by rewrite ?Hc.
  - simpl. by destruct (host_WaitConnection pts_addr).
Qed.
